(** * bom-cache-worker: an edge proxy and cache for two ArcGIS query endpoints

    A shallow embedding of the worker's request handler and of the platform
    objects it drives (strings, [Headers], [Response], [URL],
    [URLSearchParams], the edge cache and the upstream fetch), followed by the
    properties of the handler.

    Three revisions of the handler are in the repository:
    - [Index]   : src/index.ts, two datasets ([/flood], [/water]);
    - [Part000] : a single-upstream revision with five default parameters;
    - [Part001] : a single-upstream revision with four default parameters.
    [withCORS] is the same function in all three and is embedded once.

    Strings are byte strings holding the UTF-8 encoding of the JavaScript
    string. *)

From Stdlib Require Import ZArith NArith Ascii String.
From stdpp Require Import base strings list gmap pretty.

Local Open Scope Z_scope.

(* ===================================================================== *)
(** * JavaScript strings and numbers *)
(* ===================================================================== *)

Module JS.

Definition bytes (l : list N) : string :=
  string_of_list_ascii (map ascii_of_N l).

Definition code (c : ascii) : N := N_of_ascii c.

(** [strip_prefix p s] is the rest of [s] after the prefix [p], if [s] starts
    with [p]. *)
Fixpoint strip_prefix (p s : string) : option string :=
  match p, s with
  | EmptyString, _ => Some s
  | String a p', String b s' => if Ascii.eqb a b then strip_prefix p' s' else None
  | String _ _, EmptyString => None
  end.

(** WhiteSpace and LineTerminator code points of ECMAScript, in UTF-8:
    TAB LF VT FF CR SP, U+00A0, U+1680, U+2000..U+200A, U+2028, U+2029,
    U+202F, U+205F, U+3000, U+FEFF. *)
Definition whiteSpace : list string :=
  map bytes
    [ [9]; [10]; [11]; [12]; [13]; [32];
      [194; 160]; [225; 154; 128];
      [226; 128; 128]; [226; 128; 129]; [226; 128; 130]; [226; 128; 131];
      [226; 128; 132]; [226; 128; 133]; [226; 128; 134]; [226; 128; 135];
      [226; 128; 136]; [226; 128; 137]; [226; 128; 138];
      [226; 128; 168]; [226; 128; 169]; [226; 128; 175];
      [226; 129; 159]; [227; 128; 128]; [239; 187; 191] ]%N.

(** The rest of [s] after one leading element of [seqs], if any. *)
Fixpoint strip_one (seqs : list string) (s : string) : option string :=
  match seqs with
  | [] => None
  | p :: seqs' =>
      match strip_prefix p s with
      | Some r => Some r
      | None => strip_one seqs' s
      end
  end.

Fixpoint strip_all (fuel : nat) (seqs : list string) (s : string) : string :=
  match fuel with
  | O => s
  | S fuel' =>
      match strip_one seqs s with
      | Some r => strip_all fuel' seqs r
      | None => s
      end
  end.

(** [String.prototype.trimStart], [trimEnd] and [trim]. *)
Definition trimStart (s : string) : string :=
  strip_all (String.length s) whiteSpace s.

Definition trimEnd (s : string) : string :=
  String.rev (strip_all (String.length s) (map String.rev whiteSpace) (String.rev s)).

Definition trim (s : string) : string := trimEnd (trimStart s).

(** [s.split(sep)] for a one-character separator: the pieces between the
    separators, always at least one piece. *)
Fixpoint split (sep : ascii) (s : string) : list string :=
  match s with
  | EmptyString => [EmptyString]
  | String c r =>
      if Ascii.eqb c sep then EmptyString :: split sep r
      else match split sep r with
           | h :: t => String c h :: t
           | [] => [String c EmptyString]
           end
  end.

(** [Array.prototype.includes] on an array of strings. *)
Definition includes (l : list string) (x : string) : bool :=
  existsb (String.eqb x) l.

(** Truthiness of a string that may be [undefined] (or [null]): only a
    non-empty string is truthy. *)
Definition truthy (o : option string) : bool :=
  match o with
  | Some (String _ _) => true
  | _ => false
  end.

(** [o || d] on strings. *)
Definition or_else (o : option string) (d : string) : string :=
  match o with
  | Some (String _ _ as s) => s
  | _ => d
  end.

(** [o || undefined]. *)
Definition or_undefined (o : option string) : option string :=
  if truthy o then o else None.

(** ASCII lower-casing (header names are byte-lowercased by [Headers]). *)
Definition lower_ascii (c : ascii) : ascii :=
  let n := code c in
  if ((65 <=? n) && (n <=? 90))%N then ascii_of_N (n + 32) else c.

Fixpoint lower (s : string) : string :=
  match s with
  | EmptyString => EmptyString
  | String c r => String (lower_ascii c) (lower r)
  end.

(** Numbers, as far as the handler meets them: the result of [parseInt] is
    NaN or an integer.  [Int z] carries the mathematical value of the digits;
    the Number that JavaScript holds is that value whenever it is a safe
    integer, [is_safe_integer], and the statements about numbers below are
    made for that range. *)
Inductive number : Type :=
| NaN
| Int (z : Z).

Definition is_safe_integer (z : Z) : Prop := Z.abs z <= 2 ^ 53 - 1.

(** Value of a character as a digit in some radix up to 36. *)
Definition digit_value (c : ascii) : option Z :=
  let n := Z.of_N (code c) in
  if (48 <=? n) && (n <=? 57) then Some (n - 48)
  else if (97 <=? n) && (n <=? 122) then Some (n - 87)
  else if (65 <=? n) && (n <=? 90) then Some (n - 55)
  else None.

(** The values of the longest prefix of [s] made of radix-[R] digits. *)
Fixpoint leading_digits (R : Z) (s : string) : list Z :=
  match s with
  | EmptyString => []
  | String c r =>
      match digit_value c with
      | Some d => if d <? R then d :: leading_digits R r else []
      | None => []
      end
  end.

Definition digits_value (R : Z) (ds : list Z) : Z :=
  fold_left (fun acc d => R * acc + d) ds 0.

(** [parseInt(string, radix)] (ECMA-262, 19.2.5), for an integer [radix]. *)
Definition parseInt (s : string) (radix : Z) : number :=
  let S0 := trimStart s in
  let sign := match S0 with String "-" _ => -1 | _ => 1 end in
  let S1 := match S0 with
            | String "+" r | String "-" r => r
            | _ => S0
            end in
  if (radix =? 0) || ((2 <=? radix) && (radix <=? 36)) then
    let stripPrefix := (radix =? 0) || (radix =? 16) in
    let hex := stripPrefix &&
               match S1 with
               | String "0" (String "x" _) | String "0" (String "X" _) => true
               | _ => false
               end in
    let R := if hex then 16 else if radix =? 0 then 10 else radix in
    let S2 := if hex then String.substring 2 (String.length S1 - 2) S1 else S1 in
    match leading_digits R S2 with
    | [] => NaN
    | ds => Int (sign * digits_value R ds)
    end
  else NaN.

(** [Number::toString] in radix 10, as used by template literals. *)
Definition toString (n : number) : string :=
  match n with
  | NaN => "NaN"
  | Int z => pretty z
  end.

End JS.


(* ===================================================================== *)
(** * Platform objects *)
(* ===================================================================== *)

(** [Headers]: a map from byte-lowercased names to values.  Values are taken
    as the platform normalises them (no leading or trailing white space). *)
Module Headers.

Abbreviation t := (gmap string string).

Definition empty : t := ∅.

Definition get (h : t) (name : string) : option string :=
  h !! JS.lower name.

Definition has (h : t) (name : string) : bool :=
  bool_decide (is_Some (get h name)).

Definition set (name value : string) (h : t) : t :=
  <[JS.lower name := value]> h.

End Headers.

(** What a [Response] is constructed from: no body, a string, a buffer of
    bytes, or the body stream of another response. *)
Inductive BodyInit : Type :=
| BNull
| BText (s : string)
| BBuffer (s : string)
| BStream (s : string).

Record Response : Type := mkResponse {
  status : Z;
  headers : Headers.t;
  body : option string        (* [None] is the null body *)
}.

(** [new Response(body, { status, headers })].  A string body brings the
    content type [text/plain;charset=UTF-8] unless [headers] has one.  The
    constructor is taken on the statuses and bodies it accepts: a status in
    200..599, and with a body that is not null none of 101, 204, 205 and 304;
    the statements on the body of a response built from an upstream response
    carry that condition. *)
Definition new_Response (b : BodyInit) (st : Z) (h : Headers.t) : Response :=
  {| status := st;
     headers := match b with
                | BText _ =>
                    if Headers.has h "Content-Type" then h
                    else Headers.set "Content-Type" "text/plain;charset=UTF-8" h
                | _ => h
                end;
     body := match b with
             | BNull => None
             | BText s | BBuffer s | BStream s => Some s
             end |}.

(** [res.body], handed to another [Response]. *)
Definition body_stream (res : Response) : BodyInit :=
  match body res with
  | None => BNull
  | Some s => BStream s
  end.

(** [await res.arrayBuffer()]: the bytes of the body, none for a null body. *)
Definition arrayBuffer (res : Response) : string :=
  default "" (body res).

(** [res.ok] *)
Definition ok (res : Response) : bool :=
  (200 <=? status res) && (status res <=? 299).

Record Request : Type := mkRequest {
  method : string;
  pathname : string;              (* [new URL(request.url).pathname] *)
  search : string;                (* [new URL(request.url).search] *)
  req_headers : Headers.t
}.

(** [URL], on URLs given in serialised form: everything up to the query, the
    query and the fragment. *)
Module URL.

Record t : Type := mk {
  base : string;
  query : option string;
  fragment : option string
}.

(** [cut sep s]: the part of [s] before the first [sep], and the part after
    it when there is one. *)
Fixpoint cut (sep : ascii) (s : string) : string * option string :=
  match s with
  | EmptyString => (EmptyString, None)
  | String c r =>
      if Ascii.eqb c sep then (EmptyString, Some r)
      else let '(a, b) := cut sep r in (String c a, b)
  end.

Definition parse (s : string) : t :=
  let '(b, f) := cut "#" s in
  let '(p, q) := cut "?" b in
  {| base := p; query := q; fragment := f |}.

(** The [search] setter: an empty value removes the query, a leading [?] is
    dropped.  The value is kept as it is: what [URLSearchParams] serialises
    has no character that the setter would encode. *)
Definition set_search (v : string) (u : t) : t :=
  {| base := base u;
     query := match v with
              | EmptyString => None
              | String "?" r => Some r
              | _ => Some v
              end;
     fragment := fragment u |}.

Definition toString (u : t) : string :=
  base u
  +:+ match query u with Some q => "?" +:+ q | None => "" end
  +:+ match fragment u with Some f => "#" +:+ f | None => "" end.

End URL.

(** [URLSearchParams]: the list of name-value pairs, in order, duplicates
    kept (URL Standard, 5.2 and 6.2). *)
Module URLSearchParams.

Abbreviation t := (list (string * string)).

Definition hex_value (c : ascii) : option N :=
  let n := JS.code c in
  if ((48 <=? n) && (n <=? 57))%N then Some (n - 48)%N
  else if ((65 <=? n) && (n <=? 70))%N then Some (n - 55)%N
  else if ((97 <=? n) && (n <=? 102))%N then Some (n - 87)%N
  else None.

(** Percent-decoding: [%XY] with two hexadecimal digits is one byte, any
    other [%] stands for itself. *)
Fixpoint percent_decode (s : string) : string :=
  match s with
  | EmptyString => EmptyString
  | String c r =>
      let plain := String c (percent_decode r) in
      if Ascii.eqb c "%" then
        match r with
        | String a (String b r') =>
            match hex_value a, hex_value b with
            | Some x, Some y => String (ascii_of_N (16 * x + y)) (percent_decode r')
            | _, _ => plain
            end
        | _ => plain
        end
      else plain
  end.

(** U+FFFD in UTF-8, what the decoder emits for an ill-formed sequence. *)
Definition replacement : string := JS.bytes [239; 191; 189]%N.

(** For a lead byte: the number of continuation bytes that follow and the
    bounds of the first of them. *)
Definition utf8_lead (b : N) : option (nat * N * N) :=
  (if b <? 194 then None
   else if b <=? 223 then Some (1%nat, 128, 191)
   else if b =? 224 then Some (2%nat, 160, 191)
   else if b =? 237 then Some (2%nat, 128, 159)
   else if b <=? 239 then Some (2%nat, 128, 191)
   else if b =? 240 then Some (3%nat, 144, 191)
   else if b <=? 243 then Some (3%nat, 128, 191)
   else if b =? 244 then Some (3%nat, 128, 143)
   else None)%N.

(** UTF-8 decode without BOM, with replacement, the result again in UTF-8.
    [needed] continuation bytes are awaited, the next one within [lo..hi];
    [pend] holds the bytes of the sequence read so far. *)
Fixpoint utf8_decode_go (needed : nat) (lo hi : N) (pend : string) (s : string)
  : string :=
  match s with
  | EmptyString => match needed with O => "" | S _ => replacement end
  | String c r =>
      let b := JS.code c in
      let start :=
        if (b <? 128)%N then String c (utf8_decode_go 0 128 191 "" r)
        else match utf8_lead b with
             | Some (n, l, h) => utf8_decode_go n l h (String c "") r
             | None => replacement +:+ utf8_decode_go 0 128 191 "" r
             end in
      match needed with
      | O => start
      | S n =>
          if ((lo <=? b) && (b <=? hi))%N then
            match n with
            | O => pend +:+ String c (utf8_decode_go 0 128 191 "" r)
            | S _ => utf8_decode_go n 128 191 (pend +:+ String c "") r
            end
          else replacement +:+ start
      end
  end.

Definition utf8_decode (s : string) : string := utf8_decode_go 0 128 191 "" s.

Fixpoint plus_to_space (s : string) : string :=
  match s with
  | EmptyString => EmptyString
  | String c r => String (if Ascii.eqb c "+" then " "%char else c) (plus_to_space r)
  end.

Definition decode_component (s : string) : string :=
  utf8_decode (percent_decode (plus_to_space s)).

(** The application/x-www-form-urlencoded parser. *)
Definition parse_urlencoded (s : string) : t :=
  omap (fun piece =>
          match piece with
          | EmptyString => None
          | _ =>
              let '(n, v) := URL.cut "=" piece in
              Some (decode_component n, decode_component (default "" v))
          end)
       (JS.split "&" s).

(** [new URLSearchParams(init)] for a string: one leading [?] is dropped. *)
Definition new (init : string) : t :=
  parse_urlencoded (match init with String "?" r => r | _ => init end).

Definition has (sp : t) (name : string) : bool :=
  existsb (fun p => String.eqb p.1 name) sp.

Definition get (sp : t) (name : string) : option string :=
  snd <$> List.find (fun p => String.eqb p.1 name) sp.

Definition getAll (sp : t) (name : string) : list string :=
  snd <$> List.filter (fun p => String.eqb p.1 name) sp.

(** [sp.set(name, value)]: the first pair of that name takes the value and
    the later ones go; without such a pair, a new one is appended. *)
Fixpoint set (name value : string) (sp : t) : t :=
  match sp with
  | [] => [(name, value)]
  | p :: r =>
      if String.eqb p.1 name
      then (name, value) :: List.filter (fun q => negb (String.eqb q.1 name)) r
      else p :: set name value r
  end.

Definition hex_digit (n : N) : ascii :=
  ascii_of_N (if (n <? 10)%N then n + 48 else n + 55).

(** Byte serialisation: space is [+], the bytes of [*-._0-9A-Za-z] stand for
    themselves, every other byte is [%XY] in upper-case hexadecimal. *)
Definition serialize_byte (c : ascii) : string :=
  let n := JS.code c in
  if (n =? 32)%N then "+"
  else if ((n =? 42) || (n =? 45) || (n =? 46) || (n =? 95)
           || ((48 <=? n) && (n <=? 57))
           || ((65 <=? n) && (n <=? 90))
           || ((97 <=? n) && (n <=? 122)))%N
       then String c ""
  else String "%" (String (hex_digit (n / 16)) (String (hex_digit (n mod 16)) "")).

Fixpoint serialize_bytes (s : string) : string :=
  match s with
  | EmptyString => EmptyString
  | String c r => serialize_byte c +:+ serialize_bytes r
  end.

Fixpoint join (sep : string) (l : list string) : string :=
  match l with
  | [] => ""
  | [x] => x
  | x :: r => x +:+ sep +:+ join sep r
  end.

(** [sp.toString()] *)
Definition toString (sp : t) : string :=
  join "&" ((fun p => serialize_bytes p.1 +:+ "=" +:+ serialize_bytes p.2) <$> sp).

End URLSearchParams.

(** [JSON.stringify] of an object whose properties are strings. *)
Module JSON.

Definition quote : ascii := "034"%char.
Definition backslash : ascii := "092"%char.

Definition lower_hex_digit (n : N) : ascii :=
  ascii_of_N (if (n <? 10)%N then n + 48 else n + 87).

(** QuoteJSONString, one character at a time. *)
Definition escape_char (c : ascii) : string :=
  let n := JS.code c in
  if Ascii.eqb c quote then String backslash (String quote "")
  else if Ascii.eqb c backslash then String backslash (String backslash "")
  else if (n =? 8)%N then String backslash "b"
  else if (n =? 9)%N then String backslash "t"
  else if (n =? 10)%N then String backslash "n"
  else if (n =? 12)%N then String backslash "f"
  else if (n =? 13)%N then String backslash "r"
  else if (n <? 32)%N then
    String backslash
      (String "u" (String "0" (String "0"
         (String (lower_hex_digit (n / 16)) (String (lower_hex_digit (n mod 16)) "")))))
  else String c "".

Fixpoint escape (s : string) : string :=
  match s with
  | EmptyString => EmptyString
  | String c r => escape_char c +:+ escape r
  end.

Definition quoted (s : string) : string :=
  String quote (escape s) +:+ String quote "".

Definition stringify (props : list (string * string)) : string :=
  "{" +:+ URLSearchParams.join "," ((fun p => quoted p.1 +:+ ":" +:+ quoted p.2) <$> props)
  +:+ "}".

End JSON.

(* ===================================================================== *)
(** * The world of a request: edge cache, upstream, and what was done *)
(* ===================================================================== *)

(** The calls a handler makes on the platform. *)
Inductive Event : Type :=
| CacheMatch (key : string)
| CachePut (key : string) (res : Response)
| UpstreamFetch (url : string) (meth : string) (hdrs : Headers.t).

(** [edge_cache] is [caches.default], keyed by the URL of the key request.
    [origin_server] answers a GET to a URL with a response, or with [None]
    when the fetch promise rejects: a network error, or the abort that the
    8 second timer raises.  A response that is fetched is read in full.
    [trace] lists the calls made, oldest first. *)
Record World : Type := mkWorld {
  edge_cache : gmap string Response;
  origin_server : string -> option Response;
  trace : list Event
}.

Definition IO (A : Type) : Type := World -> A * World.

Definition ret {A : Type} (a : A) : IO A := fun w => (a, w).

Definition bind {A B : Type} (m : IO A) (k : A -> IO B) : IO B :=
  fun w => let '(a, w') := m w in k a w'.

Notation "x <- m ;; k" := (bind m (fun x => k))
  (at level 100, m at next level, right associativity).

Definition record (e : Event) (w : World) : World :=
  {| edge_cache := edge_cache w;
     origin_server := origin_server w;
     trace := trace w ++ [e] |}.

(** [await cache.match(key)] *)
Definition cache_match (key : string) : IO (option Response) :=
  fun w => (edge_cache w !! key, record (CacheMatch key) w).

(** [ctx.waitUntil(cache.put(key, res))]: the write is issued and the
    handler goes on; it is entered in the cache here. *)
Definition cache_put (key : string) (res : Response) : IO unit :=
  fun w => (tt, {| edge_cache := <[key := res]> (edge_cache w);
                   origin_server := origin_server w;
                   trace := trace w ++ [CachePut key res] |}).

(** [await fetch(url, { method: "GET", signal, headers: { Accept } })] under
    the timer; [None] is the [catch] branch. *)
Definition fetch_upstream (url : string) : IO (option Response) :=
  fun w => (origin_server w url,
            record (UpstreamFetch url "GET"
                      (Headers.set "Accept" "application/json" Headers.empty)) w).

(* ===================================================================== *)
(** * Code shared by the three revisions *)
(* ===================================================================== *)

(** [withCORS(res, originHeader, reqOrigin)] *)
Definition withCORS (res : Response) (originHeader : string)
    (reqOrigin : option string) : Response :=
  let allowList := JS.trim <$> JS.split "," originHeader in
  let h := headers res in
  let h :=
    if JS.truthy reqOrigin
       && (JS.includes allowList "*" || JS.includes allowList (default "" reqOrigin))
    then Headers.set "Access-Control-Allow-Origin" (default "" reqOrigin) h
    else if JS.includes allowList "*"
    then Headers.set "Access-Control-Allow-Origin" "*" h
    else h in
  let h := Headers.set "Access-Control-Allow-Methods" "GET,HEAD,OPTIONS" h in
  let h := Headers.set "Access-Control-Allow-Headers" "Content-Type" h in
  let h := Headers.set "Vary" "Origin" h in
  new_Response (body_stream res) (status res) h.

(** [cacheKeyFromURL(u)] ([buildCacheKey] in the single-upstream revisions):
    a GET request for the URL, which the cache keys by that URL. *)
Definition cacheKeyFromURL (u : URL.t) : string := URL.toString u.

(** [request.headers.get("Origin") || undefined], the first step of [fetch]. *)
Definition reqOrigin_of (request : Request) : option string :=
  JS.or_undefined (Headers.get (req_headers request) "Origin").

(** The [Cache-Control] value written on a miss (index.ts, lines 123 and 126),
    for [ttl = parseInt(env.CACHE_TTL || "3600", 10)]. *)
Definition cacheControl (CACHE_TTL : option string) : string :=
  let ttl := JS.parseInt (JS.or_else CACHE_TTL "3600") 10 in
  "public, max-age=" +:+ JS.toString ttl +:+ ", s-maxage=" +:+ JS.toString ttl
  +:+ ", stale-while-revalidate=60".

(** Header normalisation of an upstream response (index.ts, lines 123-129):
    the response [fresh]. *)
Definition normalize (CACHE_TTL : option string) (upstreamRes : Response) : Response :=
  let h := headers upstreamRes in
  let h := Headers.set "Content-Type" "application/json; charset=utf-8" h in
  let h := Headers.set "Cache-Control" (cacheControl CACHE_TTL) h in
  let body := arrayBuffer upstreamRes in
  new_Response (BBuffer body) (status upstreamRes) h.

(** The response of the [catch] branch (index.ts, lines 111-114), before
    [withCORS]. *)
Definition upstream_error : Response :=
  new_Response (BText (JSON.stringify [("error", "upstream_timeout_or_network")]))
    504 (Headers.set "Content-Type" "application/json" Headers.empty).

(* ===================================================================== *)
(** * src/index.ts *)
(* ===================================================================== *)

Module Index.

Record Env : Type := mkEnv {
  CORS_ORIGIN : string;
  UPSTREAM_FLOOD : string;
  UPSTREAM_WATER : string;
  CACHE_TTL : option string       (* [None]: the variable is not set *)
}.

Inductive Kind : Type := flood | water.

(** [applyDefaults(sp, kind)]; the parameters after the call are the result. *)
Definition applyDefaults (sp : URLSearchParams.t) (kind : Kind) : URLSearchParams.t :=
  let sp := if negb (URLSearchParams.has sp "f")
            then URLSearchParams.set "f" "geojson" sp else sp in
  let sp := if negb (URLSearchParams.has sp "returnGeometry")
            then URLSearchParams.set "returnGeometry" "true" sp else sp in
  let sp := if negb (URLSearchParams.has sp "outFields")
            then URLSearchParams.set "outFields" "*" sp else sp in
  let sp := if negb (URLSearchParams.has sp "where")
            then URLSearchParams.set "where" "1=1" sp else sp in
  match kind with
  | flood =>
      if negb (URLSearchParams.has sp "resultRecordCount")
      then URLSearchParams.set "resultRecordCount" "500" sp else sp
  | water =>
      if negb (URLSearchParams.has sp "resultRecordCount")
      then URLSearchParams.set "resultRecordCount" "1000" sp else sp
  end.

(** The defaults of [applyDefaults] as a table, per kind: the names and
    values that the statements on defaults range over. *)
Definition recordCap (kind : Kind) : string :=
  match kind with
  | flood => "500"
  | water => "1000"
  end.

Definition documented_defaults (kind : Kind) : list (string * string) :=
  [ ("f", "geojson"); ("returnGeometry", "true"); ("outFields", "*");
    ("where", "1=1"); ("resultRecordCount", recordCap kind) ].

(** [s.replace(/\/+$/, "")]: the string without its trailing slashes. *)
Fixpoint trim_trailing_slashes (s : string) : string :=
  match s with
  | EmptyString => EmptyString
  | String c r =>
      match trim_trailing_slashes r with
      | EmptyString => if Ascii.eqb c "/" then EmptyString else String c EmptyString
      | r' => String c r'
      end
  end.

(** Route selection (lines 76-78 of [fetch]): the dataset kind of a request
    path. *)
Definition route (path : string) : Kind :=
  let pathname := trim_trailing_slashes path in
  if String.eqb pathname "/water" then water else flood.

(** Line 81 of [fetch]. *)
Definition upstreamBase (env : Env) (kind : Kind) : string :=
  match kind with
  | flood => UPSTREAM_FLOOD env
  | water => UPSTREAM_WATER env
  end.

(** The upstream URL of a GET request (lines 82-87 of [fetch]): the base of
    its kind, with the inbound query and the defaults as its query. *)
Definition upstreamURL (request : Request) (env : Env) : URL.t :=
  let kind := route (pathname request) in
  let upstream := URL.parse (upstreamBase env kind) in
  let sp := applyDefaults (URLSearchParams.new (search request)) kind in
  URL.set_search (URLSearchParams.toString sp) upstream.

(** The worker entry, [fetch(request, env, ctx)]. *)
Definition fetch (request : Request) (env : Env) : IO Response :=
  let reqOrigin := reqOrigin_of request in
  if String.eqb (method request) "OPTIONS" then
    ret (withCORS (new_Response BNull 204 Headers.empty) (CORS_ORIGIN env) reqOrigin)
  else if negb (String.eqb (method request) "GET") then
    ret (withCORS (new_Response (BText "Method Not Allowed") 405 Headers.empty)
           (CORS_ORIGIN env) reqOrigin)
  else
    let upstream := upstreamURL request env in
    let key := cacheKeyFromURL upstream in
    cached <- cache_match key ;;
    match cached with
    | Some hit => ret (withCORS hit (CORS_ORIGIN env) reqOrigin)
    | None =>
        fetched <- fetch_upstream (URL.toString upstream) ;;
        match fetched with
        | None => ret (withCORS upstream_error (CORS_ORIGIN env) reqOrigin)
        | Some upstreamRes =>
            let fresh := normalize (CACHE_TTL env) upstreamRes in
            _ <- (if ok upstreamRes then cache_put key fresh else ret tt) ;;
            ret (withCORS fresh (CORS_ORIGIN env) reqOrigin)
        end
    end.

End Index.

(* ===================================================================== *)
(** * The single-upstream revisions *)
(* ===================================================================== *)

(** unnamed/part_000: five defaults, a miss is cached when [upstreamRes.ok].
    [defaults] is lines 65-69 of its [fetch], [upstreamURL] lines 61-71. *)
Module Part000.

Record Env : Type := mkEnv {
  CORS_ORIGIN : string;
  UPSTREAM : string;
  CACHE_TTL : option string       (* [None]: the variable is not set *)
}.

Definition defaults (sp : URLSearchParams.t) : URLSearchParams.t :=
  let sp := if negb (URLSearchParams.has sp "f")
            then URLSearchParams.set "f" "geojson" sp else sp in
  let sp := if negb (URLSearchParams.has sp "returnGeometry")
            then URLSearchParams.set "returnGeometry" "true" sp else sp in
  let sp := if negb (URLSearchParams.has sp "resultRecordCount")
            then URLSearchParams.set "resultRecordCount" "200" sp else sp in
  let sp := if negb (URLSearchParams.has sp "outFields")
            then URLSearchParams.set "outFields" "*" sp else sp in
  if negb (URLSearchParams.has sp "where")
  then URLSearchParams.set "where" "1=1" sp else sp.

Definition upstreamURL (request : Request) (env : Env) : URL.t :=
  let upstream := URL.parse (UPSTREAM env) in
  let sp := defaults (URLSearchParams.new (search request)) in
  URL.set_search (URLSearchParams.toString sp) upstream.

Definition fetch (request : Request) (env : Env) : IO Response :=
  let reqOrigin := reqOrigin_of request in
  if String.eqb (method request) "OPTIONS" then
    ret (withCORS (new_Response BNull 204 Headers.empty) (CORS_ORIGIN env) reqOrigin)
  else if negb (String.eqb (method request) "GET") then
    ret (withCORS (new_Response (BText "Method Not Allowed") 405 Headers.empty)
           (CORS_ORIGIN env) reqOrigin)
  else
    let upstream := upstreamURL request env in
    let cacheKey := cacheKeyFromURL upstream in
    cached <- cache_match cacheKey ;;
    match cached with
    | Some hit => ret (withCORS hit (CORS_ORIGIN env) reqOrigin)
    | None =>
        fetched <- fetch_upstream (URL.toString upstream) ;;
        match fetched with
        | None => ret (withCORS upstream_error (CORS_ORIGIN env) reqOrigin)
        | Some upstreamRes =>
            let fresh := normalize (CACHE_TTL env) upstreamRes in
            _ <- (if ok upstreamRes then cache_put cacheKey fresh else ret tt) ;;
            ret (withCORS fresh (CORS_ORIGIN env) reqOrigin)
        end
    end.

End Part000.

(** unnamed/part_001: four defaults (no [where]), every miss that gets an
    upstream response is cached.  [defaults] is lines 52-55 of its [fetch],
    [upstreamURL] lines 48-57. *)
Module Part001.

Record Env : Type := mkEnv {
  CORS_ORIGIN : string;
  UPSTREAM : string;
  CACHE_TTL : option string       (* [None]: the variable is not set *)
}.

Definition defaults (sp : URLSearchParams.t) : URLSearchParams.t :=
  let sp := if negb (URLSearchParams.has sp "f")
            then URLSearchParams.set "f" "geojson" sp else sp in
  let sp := if negb (URLSearchParams.has sp "returnGeometry")
            then URLSearchParams.set "returnGeometry" "true" sp else sp in
  let sp := if negb (URLSearchParams.has sp "resultRecordCount")
            then URLSearchParams.set "resultRecordCount" "200" sp else sp in
  if negb (URLSearchParams.has sp "outFields")
  then URLSearchParams.set "outFields" "*" sp else sp.

Definition upstreamURL (request : Request) (env : Env) : URL.t :=
  let upstream := URL.parse (UPSTREAM env) in
  let sp := defaults (URLSearchParams.new (search request)) in
  URL.set_search (URLSearchParams.toString sp) upstream.

Definition fetch (request : Request) (env : Env) : IO Response :=
  let reqOrigin := reqOrigin_of request in
  if String.eqb (method request) "OPTIONS" then
    ret (withCORS (new_Response BNull 204 Headers.empty) (CORS_ORIGIN env) reqOrigin)
  else if negb (String.eqb (method request) "GET") then
    ret (withCORS (new_Response (BText "Method Not Allowed") 405 Headers.empty)
           (CORS_ORIGIN env) reqOrigin)
  else
    let upstream := upstreamURL request env in
    let cacheKey := cacheKeyFromURL upstream in
    cached <- cache_match cacheKey ;;
    match cached with
    | Some hit => ret (withCORS hit (CORS_ORIGIN env) reqOrigin)
    | None =>
        fetched <- fetch_upstream (URL.toString upstream) ;;
        match fetched with
        | None => ret (withCORS upstream_error (CORS_ORIGIN env) reqOrigin)
        | Some upstreamRes =>
            let fresh := normalize (CACHE_TTL env) upstreamRes in
            _ <- cache_put cacheKey fresh ;;
            ret (withCORS fresh (CORS_ORIGIN env) reqOrigin)
        end
    end.

End Part001.

(* ===================================================================== *)
(** * Vocabulary of the statements *)
(* ===================================================================== *)

(** [n] slashes. *)
Fixpoint slashes (n : nat) : string :=
  match n with
  | O => EmptyString
  | S n' => String "/" (slashes n')
  end.

Definition is_fetch (e : Event) : bool :=
  match e with UpstreamFetch _ _ _ => true | _ => false end.

Definition is_put (e : Event) : bool :=
  match e with CachePut _ _ => true | _ => false end.

(** How often a trace contacts the upstream, and how often it writes to the
    cache. *)
Definition fetches (t : list Event) : nat := length (List.filter is_fetch t).
Definition puts (t : list Event) : nat := length (List.filter is_put t).

(** Whether a character occurs in a string. *)
Fixpoint occurs (c : ascii) (s : string) : bool :=
  match s with
  | EmptyString => false
  | String a r => Ascii.eqb a c || occurs c r
  end.

(** One piece [name=value] of a serialised query string. *)
Definition piece (p : string * string) : string :=
  URLSearchParams.serialize_bytes p.1 +:+ "=" +:+ URLSearchParams.serialize_bytes p.2.

(** The defaults of a table that a parameter list lacks. *)
Definition missing (sp : URLSearchParams.t) (table : list (string * string))
  : list (string * string) :=
  List.filter (fun d => negb (URLSearchParams.has sp d.1)) table.

(** The three headers that [withCORS] always sets. *)
Definition cors_fixed (h : Headers.t) : Prop :=
  Headers.get h "Access-Control-Allow-Methods" = Some "GET,HEAD,OPTIONS"
  /\ Headers.get h "Access-Control-Allow-Headers" = Some "Content-Type"
  /\ Headers.get h "Vary" = Some "Origin".

(** The headers [withCORS] may write, as [Headers] stores their names. *)
Definition cors_names : list string :=
  [ "access-control-allow-origin"; "access-control-allow-methods";
    "access-control-allow-headers"; "vary" ].

(** The allow-origin header that [withCORS] decides on, before the three
    fixed headers are set. *)
Definition allow_origin (h : gmap string string) (originHeader : string)
    (reqOrigin : option string) : gmap string string :=
  let allowList := JS.trim <$> JS.split "," originHeader in
  if JS.truthy reqOrigin
     && (JS.includes allowList "*" || JS.includes allowList (default "" reqOrigin))
  then Headers.set "Access-Control-Allow-Origin" (default "" reqOrigin) h
  else if JS.includes allowList "*"
  then Headers.set "Access-Control-Allow-Origin" "*" h
  else h.

(* ===================================================================== *)
(** * Sample configurations, requests and worlds *)
(* ===================================================================== *)

Definition sample_env : Index.Env :=
  {| Index.CORS_ORIGIN := "https://a.example, https://b.example";
     Index.UPSTREAM_FLOOD := "https://gis.example/arcgis/FeatureServer/1/query";
     Index.UPSTREAM_WATER := "https://gis.example/arcgis/MapServer/0/query";
     Index.CACHE_TTL := Some "3600" |}.

(** [GET /water/?where=STATE%3D%27NSW%27&f=json] from https://a.example *)
Definition water_request : Request :=
  {| method := "GET";
     pathname := "/water/";
     search := "?where=STATE%3D%27NSW%27&f=json";
     req_headers := Headers.set "Origin" "https://a.example" Headers.empty |}.

(** [GET /] without a query, from an origin that is not on the list. *)
Definition plain_request : Request :=
  {| method := "GET";
     pathname := "/";
     search := "";
     req_headers := Headers.set "Origin" "https://c.example" Headers.empty |}.

Definition post_request : Request :=
  {| method := "POST"; pathname := "/flood"; search := "";
     req_headers := Headers.empty |}.

Definition options_request : Request :=
  {| method := "OPTIONS"; pathname := "/flood"; search := "";
     req_headers := Headers.set "Origin" "https://b.example" Headers.empty |}.

(** An upstream answer 200 with a GeoJSON body. *)
Definition upstream_200 : Response :=
  {| status := 200;
     headers := Headers.set "Content-Type" "application/geo+json" Headers.empty;
     body := Some "{}" |}.

(** An upstream answer 500 that allows every origin. *)
Definition upstream_500 : Response :=
  {| status := 500;
     headers := Headers.set "Access-Control-Allow-Origin" "*"
                  (Headers.set "Content-Type" "text/html" Headers.empty);
     body := Some "Internal Server Error" |}.

(** Worlds with an empty cache: the upstream answers every URL with a given
    response, or cannot be reached. *)
Definition world_answering (r : Response) : World :=
  {| edge_cache := ∅; origin_server := fun _ => Some r; trace := [] |}.

Definition world_unreachable : World :=
  {| edge_cache := ∅; origin_server := fun _ => None; trace := [] |}.

(** A configuration of the single-upstream revisions. *)
Definition single_env_000 : Part000.Env :=
  {| Part000.CORS_ORIGIN := "https://a.example, https://b.example";
     Part000.UPSTREAM := "https://gis.example/arcgis/FeatureServer/1/query";
     Part000.CACHE_TTL := Some "3600" |}.

Definition single_env_001 : Part001.Env :=
  {| Part001.CORS_ORIGIN := "https://a.example, https://b.example";
     Part001.UPSTREAM := "https://gis.example/arcgis/FeatureServer/1/query";
     Part001.CACHE_TTL := Some "3600" |}.

(** A configuration whose CACHE_TTL is not a number. *)
Definition env_ttl_text : Index.Env :=
  {| Index.CORS_ORIGIN := "https://a.example, https://b.example";
     Index.UPSTREAM_FLOOD := "https://gis.example/arcgis/FeatureServer/1/query";
     Index.UPSTREAM_WATER := "https://gis.example/arcgis/MapServer/0/query";
     Index.CACHE_TTL := Some "one hour" |}.

(** An upstream answer 200 that allows every origin. *)
Definition upstream_200_open : Response :=
  {| status := 200;
     headers := Headers.set "Access-Control-Allow-Origin" "*"
                  (Headers.set "Content-Type" "application/geo+json" Headers.empty);
     body := Some "{}" |}.

(* ===================================================================== *)
(** * Vocabulary and samples of the further properties *)
(* ===================================================================== *)

(** The allow-origin decision, as a relation between the configured list, the
    Origin header of the request and the Access-Control-Allow-Origin header of
    a response that had none before [withCORS]: a present, non-empty origin
    is echoed when it is on the trimmed list or the list has the wildcard;
    without an origin the wildcard gives [*]; otherwise there is no header. *)
Definition origin_decision (originHeader : string) (origin allowed : option string)
  : Prop :=
  let allowList := JS.trim <$> JS.split "," originHeader in
  (forall o, origin = Some o -> o <> "" -> o ∈ allowList \/ "*" ∈ allowList ->
     allowed = Some o)
  /\ (origin = None \/ origin = Some "" -> "*" ∈ allowList -> allowed = Some "*")
  /\ ("*" ∉ allowList -> (forall o, origin = Some o -> o = "" \/ o ∉ allowList) ->
      allowed = None).

(** The statuses that a response has no body with. *)
Definition null_body_status (st : Z) : bool :=
  (st =? 101) || (st =? 204) || (st =? 205) || (st =? 304).

(** A request with another path. *)
Definition with_pathname (request : Request) (path : string) : Request :=
  {| method := method request;
     pathname := path;
     search := search request;
     req_headers := req_headers request |}.

(** The defaults of the single-upstream revisions, as tables: lines 65-69 of
    unnamed/part_000 and lines 52-55 of unnamed/part_001. *)
Definition part000_defaults : list (string * string) :=
  [ ("f", "geojson"); ("returnGeometry", "true"); ("resultRecordCount", "200");
    ("outFields", "*"); ("where", "1=1") ].

Definition part001_defaults : list (string * string) :=
  [ ("f", "geojson"); ("returnGeometry", "true"); ("resultRecordCount", "200");
    ("outFields", "*") ].

(** The two headers that the normalisation of a miss overwrites, as [Headers]
    stores their names. *)
Definition normalized_names : list string := [ "content-type"; "cache-control" ].

Definition head_request : Request :=
  {| method := "HEAD"; pathname := "/flood"; search := "";
     req_headers := Headers.empty |}.

(** A response as the handler stores it, and a world that has it in the cache
    under the key of [plain_request]; the upstream cannot be reached. *)
Definition stored_200 : Response :=
  {| status := 200;
     headers := Headers.set "Cache-Control" "public, max-age=60"
                  (Headers.set "Content-Type" "application/json; charset=utf-8"
                     Headers.empty);
     body := Some "{}" |}.

Definition world_cached : World :=
  {| edge_cache :=
       {[ "https://gis.example/arcgis/FeatureServer/1/query?f=geojson&returnGeometry=true&outFields=*&where=1%3D1&resultRecordCount=500"
          := stored_200 ]};
     origin_server := fun _ => None;
     trace := [] |}.

(* ===================================================================== *)
(** * Strings *)
(* ===================================================================== *)

Section StringFacts.

Lemma includes_In (l : list string) (x : string) :
  JS.includes l x = true <-> x ∈ l.
Proof.
  unfold JS.includes. rewrite existsb_exists. split.
  - intros (y & Hy & Heq). apply String.eqb_eq in Heq. subst y.
    by apply list_elem_of_In.
  - intros Hx. exists x. split; [by apply list_elem_of_In | apply String.eqb_refl].
Qed.

Lemma includes_not_In (l : list string) (x : string) :
  JS.includes l x = false <-> x ∉ l.
Proof.
  rewrite <- includes_In. destruct (JS.includes l x); split; congruence.
Qed.

Lemma append_nil (s : string) : "" +:+ s = s.
Proof. reflexivity. Qed.

Lemma append_cons (c : ascii) (a s : string) : String c a +:+ s = String c (a +:+ s).
Proof. reflexivity. Qed.

Lemma occurs_append (c : ascii) (a b : string) :
  occurs c (a +:+ b) = occurs c a || occurs c b.
Proof.
  induction a as [| x a IH]; [done |].
  rewrite append_cons. simpl. rewrite IH. by rewrite orb_assoc.
Qed.

(** Splitting at a separator that the first part is free of. *)
Lemma split_append (sep : ascii) (a b : string) :
  occurs sep a = false ->
  JS.split sep (a +:+ String sep b) = a :: JS.split sep b.
Proof.
  induction a as [| x a IH]; intros H.
  - rewrite append_nil. simpl. by rewrite Ascii.eqb_refl.
  - rewrite append_cons. simpl in *. apply orb_false_iff in H as [Hx Ha].
    rewrite Hx, (IH Ha). done.
Qed.

Lemma split_whole (sep : ascii) (a : string) :
  occurs sep a = false -> JS.split sep a = [a].
Proof.
  induction a as [| x a IH]; intros H; [done |].
  simpl in *. apply orb_false_iff in H as [Hx Ha]. by rewrite Hx, (IH Ha).
Qed.

Lemma split_join (sep : ascii) (l : list string) :
  l <> [] -> (forall x, x ∈ l -> occurs sep x = false) ->
  JS.split sep (URLSearchParams.join (String sep "") l) = l.
Proof.
  induction l as [| x r IH]; [done |]. intros _ H.
  destruct r as [| y r].
  - simpl. apply split_whole, H, list_elem_of_here.
  - change (URLSearchParams.join (String sep "") (x :: y :: r))
      with (x +:+ String sep (URLSearchParams.join (String sep "") (y :: r))).
    rewrite split_append by apply H, list_elem_of_here.
    f_equal. apply IH; [done |].
    intros z Hz. apply H. by apply list_elem_of_further.
Qed.

End StringFacts.

(* ===================================================================== *)
(** * URLSearchParams *)
(* ===================================================================== *)

Section ParamFacts.

Import URLSearchParams.

Implicit Types (sp l : list (string * string)) (n m v : string).

Lemma has_app sp l n : has (sp ++ l) n = has sp n || has l n.
Proof. unfold has. apply existsb_app. Qed.

Lemma has_true sp n : has sp n = true <-> exists v, (n, v) ∈ sp.
Proof.
  unfold has. rewrite existsb_exists. split.
  - intros ([k v] & Hin & Heq). apply String.eqb_eq in Heq. simpl in Heq. subst k.
    exists v. by apply list_elem_of_In.
  - intros (v & Hin). exists (n, v). split; [by apply list_elem_of_In |].
    apply String.eqb_refl.
Qed.

Lemma has_false sp n : has sp n = false <-> forall v, (n, v) ∉ sp.
Proof.
  split.
  - intros Hf v Hin. assert (has sp n = true) by (apply has_true; eauto). congruence.
  - intros Hno. destruct (has sp n) eqn:E; [| done].
    apply has_true in E as (v & Hin). by destruct (Hno v).
Qed.

(** Without a pair of that name, [set] appends. *)
Lemma set_absent sp n v : has sp n = false -> set n v sp = sp ++ [(n, v)].
Proof.
  induction sp as [| p r IH]; simpl; [done |].
  intros H. apply orb_false_iff in H as [Hp Hr].
  rewrite Hp. by rewrite IH.
Qed.

Lemma get_app sp l n :
  get (sp ++ l) n = match get sp n with Some v => Some v | None => get l n end.
Proof.
  unfold get. induction sp as [| p r IH]; simpl; [done |].
  destruct (String.eqb p.1 n); [done | apply IH].
Qed.

Lemma get_None sp n : has sp n = false -> get sp n = None.
Proof.
  unfold get, has. induction sp as [| p r IH]; simpl; [done |].
  intros H. apply orb_false_iff in H as [Hp Hr]. rewrite Hp. by apply IH.
Qed.

Lemma getAll_app sp l n : getAll (sp ++ l) n = getAll sp n ++ getAll l n.
Proof. unfold getAll. by rewrite List.filter_app, fmap_app. Qed.

Lemma getAll_nil sp n : has sp n = false -> getAll sp n = [].
Proof.
  unfold getAll, has. induction sp as [| p r IH]; simpl; [done |].
  intros H. apply orb_false_iff in H as [Hp Hr]. rewrite Hp. by apply IH.
Qed.

(** The defaults a list lacks: none of them bears a name the list has. *)
Lemma has_missing sp table n : has sp n = true -> has (missing sp table) n = false.
Proof.
  intros Hn. apply has_false. intros v Hin.
  apply list_elem_of_In, List.filter_In in Hin as [_ Hneg]. simpl in Hneg.
  rewrite Hn in Hneg. done.
Qed.

Lemma missing_In sp table n v :
  (n, v) ∈ table -> has sp n = false -> (n, v) ∈ missing sp table.
Proof.
  intros Hin Hn. apply list_elem_of_In, List.filter_In. split.
  - by apply list_elem_of_In.
  - simpl. by rewrite Hn.
Qed.

Lemma filter_none {A : Type} (f : A -> bool) (l : list A) :
  (forall x, x ∈ l -> f x = false) -> List.filter f l = [].
Proof.
  induction l as [| a r IH]; simpl; [done |].
  intros H. rewrite (H a) by apply list_elem_of_here.
  apply IH. intros x Hx. apply H. by apply list_elem_of_further.
Qed.

(** Once the lacking defaults are appended, nothing of the table is lacking. *)
Lemma missing_filled sp table : missing (sp ++ missing sp table) table = [].
Proof.
  apply filter_none. intros [n v] Hin. simpl.
  rewrite has_app. destruct (has sp n) eqn:E; [done |]. simpl.
  apply negb_false_iff, has_true. exists v. by apply missing_In.
Qed.

Lemma missing_app sp table l :
  missing sp (table ++ l) = missing sp table ++ missing sp l.
Proof. apply List.filter_app. Qed.

(** One line of [applyDefaults]: [if (!sp.has(n)) sp.set(n, v)]. *)
Lemma fill_eq sp n v :
  (if negb (has sp n) then set n v sp else sp) = sp ++ missing sp [(n, v)].
Proof.
  unfold missing. simpl. destruct (has sp n) eqn:E; simpl.
  - by rewrite app_nil_r.
  - by apply set_absent.
Qed.

Lemma has_missing_other sp table n :
  has table n = false -> has (missing sp table) n = false.
Proof.
  rewrite !has_false. intros H v Hin. apply (H v).
  apply list_elem_of_In, List.filter_In in Hin as [Hin _]. by apply list_elem_of_In.
Qed.

(** Defaults appended for other names do not change what is lacking. *)
Lemma missing_after sp l table :
  (forall d, d ∈ table -> has l d.1 = false) ->
  missing (sp ++ l) table = missing sp table.
Proof.
  intros H. unfold missing. apply List.filter_ext_in. intros d Hd.
  rewrite has_app, (H d) by (by apply list_elem_of_In). by rewrite orb_false_r.
Qed.

Lemma fill_after sp table n v :
  has table n = false ->
  (sp ++ missing sp table) ++ missing (sp ++ missing sp table) [(n, v)]
  = sp ++ missing sp (table ++ [(n, v)]).
Proof.
  intros H. rewrite missing_after.
  - by rewrite missing_app, app_assoc.
  - intros d Hd. apply list_elem_of_singleton in Hd. subst d. simpl.
    by apply has_missing_other.
Qed.

(** Serialised bytes hold none of the characters that structure a query. *)
Lemma serialize_byte_plain (c : ascii) :
  occurs "&" (serialize_byte c) = false
  /\ occurs "=" (serialize_byte c) = false
  /\ occurs "?" (serialize_byte c) = false
  /\ occurs "#" (serialize_byte c) = false.
Proof. destruct c as [[] [] [] [] [] [] [] []]; vm_compute; auto. Qed.

Lemma serialize_bytes_plain (x : string) :
  occurs "&" (serialize_bytes x) = false
  /\ occurs "=" (serialize_bytes x) = false
  /\ occurs "?" (serialize_bytes x) = false
  /\ occurs "#" (serialize_bytes x) = false.
Proof.
  induction x as [| c r (IH1 & IH2 & IH3 & IH4)]; [done |].
  destruct (serialize_byte_plain c) as (H1 & H2 & H3 & H4).
  simpl. rewrite !occurs_append, H1, H2, H3, H4, IH1, IH2, IH3, IH4. done.
Qed.

Lemma piece_plain (p : string * string) :
  occurs "&" (piece p) = false /\ occurs "?" (piece p) = false
  /\ occurs "#" (piece p) = false /\ piece p <> "".
Proof.
  unfold piece.
  destruct (serialize_bytes_plain p.1) as (H1 & _ & H3 & H4).
  destruct (serialize_bytes_plain p.2) as (G1 & _ & G3 & G4).
  rewrite !occurs_append, H1, H3, H4, G1, G3, G4. repeat split; try done.
  destruct (serialize_bytes p.1); discriminate.
Qed.

Lemma toString_pieces sp : toString sp = join "&" (piece <$> sp).
Proof. reflexivity. Qed.

(** The pieces of a serialised, non-empty parameter list, split at [&], are
    the pieces of its pairs, in order. *)
Lemma split_toString sp :
  sp <> [] -> JS.split "&" (toString sp) = piece <$> sp.
Proof.
  intros Hne. rewrite toString_pieces. apply split_join.
  - by destruct sp.
  - intros x Hx. apply list_elem_of_fmap in Hx as (p & -> & _). apply piece_plain.
Qed.

Lemma join_plain (c : ascii) (l : list string) :
  occurs c "&" = false -> (forall x, x ∈ l -> occurs c x = false) ->
  occurs c (join "&" l) = false.
Proof.
  intros Hc. induction l as [| x r IH]; intros H; [done |].
  destruct r as [| y r]; [apply H, list_elem_of_here |].
  change (join "&" (x :: y :: r)) with (x +:+ "&" +:+ join "&" (y :: r)).
  rewrite !occurs_append, Hc, (H x) by apply list_elem_of_here. simpl.
  apply IH. intros z Hz. apply H. by apply list_elem_of_further.
Qed.

(** Setting a serialised, non-empty parameter list as the search of a URL
    makes it the query, as it is. *)
Lemma query_set_search sp (u : URL.t) :
  sp <> [] -> URL.query (URL.set_search (toString sp) u) = Some (toString sp).
Proof.
  intros Hne. unfold URL.set_search. simpl.
  assert (Hq : occurs "?" (toString sp) = false).
  { rewrite toString_pieces. apply join_plain; [done |].
    intros x Hx. apply list_elem_of_fmap in Hx as (p & -> & _). apply piece_plain. }
  assert (He : toString sp <> "").
  { destruct sp as [| p r]; [done |]. rewrite toString_pieces.
    destruct (piece_plain p) as (_ & _ & _ & Hp).
    destruct r; simpl; [done |].
    destruct (piece p); [done | discriminate]. }
  destruct (toString sp) as [| c r]; [done |].
  simpl in Hq. apply orb_false_iff in Hq as [Hc _].
  destruct (Ascii.eqb_spec c "?"); [done |].
  destruct c as [[] [] [] [] [] [] [] []]; try reflexivity. by destruct n.
Qed.

End ParamFacts.

(* ===================================================================== *)
(** * applyDefaults *)
(* ===================================================================== *)

Section ApplyDefaults.

Import URLSearchParams.

(** [applyDefaults] keeps the inbound parameters, in order, and appends the
    documented defaults whose names the inbound parameters lack. *)
Lemma applyDefaults_spec (sp : list (string * string)) (kind : Index.Kind) :
  Index.applyDefaults sp kind = sp ++ missing sp (Index.documented_defaults kind).
Proof.
  unfold Index.applyDefaults, Index.documented_defaults.
  destruct kind; cbv zeta; rewrite !fill_eq;
    do 4 (rewrite (fill_after sp) by reflexivity; cbn [app]);
    reflexivity.
Qed.

End ApplyDefaults.

(* ===================================================================== *)
(** * withCORS *)
(* ===================================================================== *)

Section WithCORS.

Implicit Types (res : Response) (h : gmap string string).

Lemma get_set_same h (name value : string) :
  Headers.get (Headers.set name value h) name = Some value.
Proof. unfold Headers.get, Headers.set. apply lookup_insert_eq. Qed.

Lemma get_set_other h (name other value : string) :
  JS.lower name <> JS.lower other ->
  Headers.get (Headers.set name value h) other = Headers.get h other.
Proof. intros H. unfold Headers.get, Headers.set. by apply lookup_insert_ne. Qed.

(** A response made from the body of another takes the headers it is given. *)
Lemma headers_rewrap res (st : Z) h :
  headers (new_Response (body_stream res) st h) = h.
Proof. unfold body_stream. by destruct (body res). Qed.

Lemma body_rewrap res (st : Z) h :
  body (new_Response (body_stream res) st h) = body res.
Proof. unfold body_stream. by destruct (body res). Qed.

Lemma headers_withCORS res (originHeader : string) (reqOrigin : option string) :
  headers (withCORS res originHeader reqOrigin)
  = Headers.set "Vary" "Origin"
      (Headers.set "Access-Control-Allow-Headers" "Content-Type"
         (Headers.set "Access-Control-Allow-Methods" "GET,HEAD,OPTIONS"
            (allow_origin (headers res) originHeader reqOrigin))).
Proof. unfold withCORS. cbv zeta. by rewrite headers_rewrap. Qed.

Lemma status_withCORS res (originHeader : string) (reqOrigin : option string) :
  status (withCORS res originHeader reqOrigin) = status res.
Proof. reflexivity. Qed.

Lemma body_withCORS res (originHeader : string) (reqOrigin : option string) :
  body (withCORS res originHeader reqOrigin) = body res.
Proof. unfold withCORS. cbv zeta. apply body_rewrap. Qed.

Lemma withCORS_fixed res (originHeader : string) (reqOrigin : option string) :
  cors_fixed (headers (withCORS res originHeader reqOrigin)).
Proof.
  rewrite headers_withCORS. unfold cors_fixed. repeat split.
  - rewrite !get_set_other by (vm_compute; discriminate). apply get_set_same.
  - rewrite get_set_other by (vm_compute; discriminate). apply get_set_same.
  - apply get_set_same.
Qed.

(** A header that is none of the three fixed ones is as [allow_origin]
    leaves it. *)
Lemma get_withCORS_allow res (originHeader : string) (reqOrigin : option string) :
  Headers.get (headers (withCORS res originHeader reqOrigin))
              "Access-Control-Allow-Origin"
  = Headers.get (allow_origin (headers res) originHeader reqOrigin)
                "Access-Control-Allow-Origin".
Proof.
  rewrite headers_withCORS. by rewrite !get_set_other by (vm_compute; discriminate).
Qed.

Lemma get_allow_origin_other h (originHeader : string) (reqOrigin : option string)
    (name : string) :
  JS.lower name <> "access-control-allow-origin" ->
  Headers.get (allow_origin h originHeader reqOrigin) name = Headers.get h name.
Proof.
  intros H. unfold allow_origin. cbv zeta.
  repeat case_match; try done; by rewrite get_set_other.
Qed.

(** A header that [withCORS] does not write is as in the wrapped response. *)
Lemma get_withCORS_other res (originHeader : string) (reqOrigin : option string)
    (name : string) :
  JS.lower name ∉ cors_names ->
  Headers.get (headers (withCORS res originHeader reqOrigin)) name
  = Headers.get (headers res) name.
Proof.
  intros Hname. unfold cors_names in Hname.
  rewrite !not_elem_of_cons in Hname. destruct Hname as (H1 & H2 & H3 & H4 & _).
  rewrite headers_withCORS.
  rewrite (get_set_other _ "Vary") by (intros E; apply H4; by rewrite <- E).
  rewrite (get_set_other _ "Access-Control-Allow-Headers")
    by (intros E; apply H3; by rewrite <- E).
  rewrite (get_set_other _ "Access-Control-Allow-Methods")
    by (intros E; apply H2; by rewrite <- E).
  by apply get_allow_origin_other.
Qed.

Lemma plain_header (name : string) :
  List.forallb (fun n => negb (String.eqb (JS.lower name) n)) cors_names = true ->
  JS.lower name ∉ cors_names.
Proof.
  intros H Hin. rewrite List.forallb_forall in H.
  specialize (H _ (proj1 (list_elem_of_In _ _) Hin)).
  by rewrite String.eqb_refl in H.
Qed.

(** The allow-origin decision of [withCORS]. *)
Lemma withCORS_allow_origin res (originHeader : string) (reqOrigin : option string) :
  let allowList := JS.trim <$> JS.split "," originHeader in
  let allowed := Headers.get (headers (withCORS res originHeader reqOrigin))
                   "Access-Control-Allow-Origin" in
  (forall o, reqOrigin = Some o -> o <> "" -> o ∈ allowList \/ "*" ∈ allowList ->
     allowed = Some o)
  /\ (JS.truthy reqOrigin = false -> "*" ∈ allowList -> allowed = Some "*")
  /\ ("*" ∉ allowList -> (forall o, reqOrigin = Some o -> o = "" \/ o ∉ allowList) ->
      allowed = Headers.get (headers res) "Access-Control-Allow-Origin").
Proof.
  cbv zeta. rewrite get_withCORS_allow. unfold allow_origin. cbv zeta.
  set (allowList := JS.trim <$> JS.split "," originHeader).
  repeat split.
  - intros o -> Ho Hin. change (default "" (Some o)) with o.
    assert (Ht : JS.truthy (Some o) = true) by (by destruct o).
    assert (Hi : JS.includes allowList "*" || JS.includes allowList o = true).
    { apply orb_true_iff. destruct Hin as [Hin | Hin]; [right | left];
        by apply includes_In. }
    rewrite Ht, Hi. simpl. apply get_set_same.
  - intros Ht Hstar. rewrite Ht. simpl.
    apply includes_In in Hstar. rewrite Hstar. apply get_set_same.
  - intros Hstar Ho. apply includes_not_In in Hstar. rewrite Hstar. simpl.
    destruct reqOrigin as [o |]; [| done]. change (default "" (Some o)) with o.
    destruct (Ho o eq_refl) as [-> | Hn]; [done |].
    apply includes_not_In in Hn. rewrite Hn. by rewrite andb_false_r.
Qed.

End WithCORS.

(* ===================================================================== *)
(** * The handler of src/index.ts, case by case *)
(* ===================================================================== *)

Section IndexFetch.

Import Index.

Variables (request : Request) (env : Env) (w : World).

Let key : string := cacheKeyFromURL (upstreamURL request env).
Let url : string := URL.toString (upstreamURL request env).
Let accept : gmap string string :=
  Headers.set "Accept" "application/json" Headers.empty.

Lemma fetch_OPTIONS :
  method request = "OPTIONS" ->
  fetch request env w
  = (withCORS (new_Response BNull 204 Headers.empty) (CORS_ORIGIN env)
       (reqOrigin_of request), w).
Proof. intros H. unfold fetch. rewrite H. reflexivity. Qed.

Lemma fetch_not_allowed :
  method request <> "OPTIONS" -> method request <> "GET" ->
  fetch request env w
  = (withCORS (new_Response (BText "Method Not Allowed") 405 Headers.empty)
       (CORS_ORIGIN env) (reqOrigin_of request), w).
Proof.
  intros HO HG. unfold fetch.
  apply String.eqb_neq in HO, HG. rewrite HO, HG. reflexivity.
Qed.

Lemma fetch_GET :
  method request = "GET" ->
  fetch request env w
  = (cached <- cache_match key ;;
     match cached with
     | Some hit => ret (withCORS hit (CORS_ORIGIN env) (reqOrigin_of request))
     | None =>
         fetched <- fetch_upstream url ;;
         match fetched with
         | None => ret (withCORS upstream_error (CORS_ORIGIN env) (reqOrigin_of request))
         | Some upstreamRes =>
             let fresh := normalize (CACHE_TTL env) upstreamRes in
             _ <- (if ok upstreamRes then cache_put key fresh else ret tt) ;;
             ret (withCORS fresh (CORS_ORIGIN env) (reqOrigin_of request))
         end
     end) w.
Proof. intros H. unfold fetch. rewrite H. reflexivity. Qed.

Lemma fetch_hit (hit : Response) :
  method request = "GET" -> edge_cache w !! key = Some hit ->
  fetch request env w
  = (withCORS hit (CORS_ORIGIN env) (reqOrigin_of request),
     record (CacheMatch key) w).
Proof.
  intros HG Hhit. rewrite fetch_GET by done.
  unfold bind, cache_match, ret. by rewrite Hhit.
Qed.

Lemma fetch_unreachable :
  method request = "GET" -> edge_cache w !! key = None ->
  origin_server w url = None ->
  fetch request env w
  = (withCORS upstream_error (CORS_ORIGIN env) (reqOrigin_of request),
     record (UpstreamFetch url "GET" accept) (record (CacheMatch key) w)).
Proof.
  intros HG Hmiss Hnet. rewrite fetch_GET by done.
  unfold bind, cache_match, fetch_upstream, ret. rewrite Hmiss. simpl.
  by rewrite Hnet.
Qed.

Lemma fetch_miss (upstreamRes : Response) :
  method request = "GET" -> edge_cache w !! key = None ->
  origin_server w url = Some upstreamRes ->
  let fresh := normalize (CACHE_TTL env) upstreamRes in
  let w1 := record (UpstreamFetch url "GET" accept) (record (CacheMatch key) w) in
  fetch request env w
  = (withCORS fresh (CORS_ORIGIN env) (reqOrigin_of request),
     if ok upstreamRes
     then {| edge_cache := <[key := fresh]> (edge_cache w);
             origin_server := origin_server w;
             trace := trace w1 ++ [CachePut key fresh] |}
     else w1).
Proof.
  intros HG Hmiss Hnet. cbv zeta. rewrite fetch_GET by done.
  unfold bind, cache_match, fetch_upstream, cache_put, ret. rewrite Hmiss. simpl.
  rewrite Hnet. by destruct (ok upstreamRes).
Qed.

(** A GET request looks its upstream URL up in the cache first; whatever
    follows is a fetch of that URL and a write under that key. *)
Lemma fetch_GET_trace :
  method request = "GET" ->
  exists rest,
    trace (fetch request env w).2 = trace w ++ CacheMatch key :: rest
    /\ (forall e, e ∈ rest ->
          e = UpstreamFetch url "GET" accept \/ exists r, e = CachePut key r).
Proof.
  intros HG.
  destruct (edge_cache w !! key) as [hit |] eqn:Hc.
  - rewrite (fetch_hit hit) by done. exists []. split; [done |].
    intros e He. by apply elem_of_nil in He.
  - destruct (origin_server w url) as [up |] eqn:Hn.
    + rewrite (fetch_miss up) by done. cbv zeta. destruct (ok up); simpl.
      * eexists [_; _]. rewrite <- !app_assoc. split; [done |].
        intros e He. apply elem_of_cons in He as [-> | He]; [by left |].
        apply list_elem_of_singleton in He as ->. right. eauto.
      * eexists [_]. rewrite <- !app_assoc. split; [done |].
        intros e He. apply list_elem_of_singleton in He as ->. by left.
    + rewrite fetch_unreachable by done. simpl.
      eexists [_]. rewrite <- !app_assoc. split; [done |].
      intros e He. apply list_elem_of_singleton in He as ->. by left.
Qed.

(** Every response of the handler is wrapped by [withCORS]; what is wrapped
    is the empty 204, the 405, a cached response, the 504, or the normalised
    upstream response. *)
Lemma fetch_wraps :
  exists inner,
    (fetch request env w).1 = withCORS inner (CORS_ORIGIN env) (reqOrigin_of request)
    /\ ((method request = "OPTIONS" /\ inner = new_Response BNull 204 Headers.empty)
        \/ (method request <> "OPTIONS" /\ method request <> "GET"
            /\ inner = new_Response (BText "Method Not Allowed") 405 Headers.empty)
        \/ (method request = "GET" /\ edge_cache w !! key = Some inner)
        \/ (method request = "GET" /\ edge_cache w !! key = None
            /\ origin_server w url = None /\ inner = upstream_error)
        \/ (method request = "GET" /\ edge_cache w !! key = None
            /\ exists upstreamRes, origin_server w url = Some upstreamRes
                                   /\ inner = normalize (CACHE_TTL env) upstreamRes)).
Proof.
  destruct (String.eqb_spec (method request) "OPTIONS") as [HO | HO].
  { rewrite fetch_OPTIONS by done. eexists. split; [done |]. by left. }
  destruct (String.eqb_spec (method request) "GET") as [HG | HG].
  2: { rewrite fetch_not_allowed by done. eexists. split; [done |]. right. by left. }
  destruct (edge_cache w !! key) as [hit |] eqn:Hc.
  { rewrite (fetch_hit hit) by done. exists hit. split; [done |]. right. right. by left. }
  destruct (origin_server w url) as [up |] eqn:Hn.
  - rewrite (fetch_miss up) by done. eexists. split; [done |].
    do 4 right. repeat split; try done. by exists up.
  - rewrite fetch_unreachable by done. eexists. split; [done |].
    do 3 right. by left.
Qed.

End IndexFetch.

(* ===================================================================== *)
(** * Route selection *)
(* ===================================================================== *)

Section Route.

Import Index.

Lemma trim_slashes (n : nat) : trim_trailing_slashes (slashes n) = "".
Proof. induction n as [| n IH]; simpl; [done |]. by rewrite IH. Qed.

(** Trailing slashes do not count. *)
Lemma trim_append_slashes (t : string) (n : nat) :
  trim_trailing_slashes (t +:+ slashes n) = trim_trailing_slashes t.
Proof.
  induction t as [| c t IH].
  - rewrite append_nil. apply trim_slashes.
  - rewrite append_cons. simpl. by rewrite IH.
Qed.

(** What is trimmed is a run of slashes. *)
Lemma trim_spec (s : string) :
  exists n, s = trim_trailing_slashes s +:+ slashes n.
Proof.
  induction s as [| c r [n IH]]; [by exists 0%nat |].
  simpl. destruct (trim_trailing_slashes r) as [| d r'] eqn:E.
  - rewrite append_nil in IH. destruct (Ascii.eqb_spec c "/") as [-> | Hc].
    + exists (S n). rewrite append_nil. simpl. by rewrite <- IH.
    + exists n. rewrite append_cons, append_nil. by rewrite <- IH.
  - exists n. rewrite append_cons. by rewrite <- IH.
Qed.

(** What is left does not end in a slash. *)
Lemma trim_no_trailing_slash (s t : string) :
  trim_trailing_slashes s <> t +:+ "/".
Proof.
  revert t. induction s as [| c r IH]; intros t.
  - simpl. by destruct t.
  - simpl. destruct (trim_trailing_slashes r) as [| d r'] eqn:E.
    + destruct (Ascii.eqb_spec c "/") as [-> | Hc].
      * by destruct t.
      * destruct t as [| x [| y t]]; try discriminate.
        rewrite append_nil. congruence.
    + destruct t as [| x t].
      * rewrite append_nil. discriminate.
      * rewrite append_cons. intros [= _ H]. by apply (IH t).
Qed.

Lemma trim_water (s : string) :
  trim_trailing_slashes s = "/water" <-> exists n, s = "/water" +:+ slashes n.
Proof.
  split.
  - intros H. destruct (trim_spec s) as [n Hn]. exists n. by rewrite H in Hn.
  - intros [n ->]. by rewrite trim_append_slashes.
Qed.

Lemma route_water (path : string) :
  route path = water <-> trim_trailing_slashes path = "/water".
Proof.
  unfold route. cbv zeta.
  destruct (String.eqb_spec (trim_trailing_slashes path) "/water"); split; done.
Qed.

Lemma route_flood (path : string) :
  route path = flood <-> trim_trailing_slashes path <> "/water".
Proof.
  unfold route. cbv zeta.
  destruct (String.eqb_spec (trim_trailing_slashes path) "/water"); split; done.
Qed.

End Route.

(* ===================================================================== *)
(** * Properties of the handler *)
(* ===================================================================== *)

(** C8. Route selection of a GET request: the path is taken without its
    trailing slashes; when what is left is [/water] the kind is water and the
    upstream base is UPSTREAM_WATER; for every other path, [/flood] and [/]
    among them, the kind is flood and the base is UPSTREAM_FLOOD; and the
    handler goes to the cache with the URL built on that base. *)
Theorem route_selection (request : Request) (env : Index.Env) (w : World) :
  method request = "GET" ->
  let path := pathname request in
  let trimmed := Index.trim_trailing_slashes path in
  let kind := Index.route path in
  (exists n, path = trimmed +:+ slashes n)
  /\ (forall t, trimmed <> t +:+ "/")
  /\ (trimmed = "/water" ->
      kind = Index.water /\ Index.upstreamBase env kind = Index.UPSTREAM_WATER env)
  /\ (trimmed <> "/water" ->
      kind = Index.flood /\ Index.upstreamBase env kind = Index.UPSTREAM_FLOOD env)
  /\ Index.route "/water" = Index.water
  /\ Index.route "/flood" = Index.flood
  /\ Index.route "/" = Index.flood
  /\ exists rest,
       trace (Index.fetch request env w).2
       = trace w
         ++ CacheMatch
              (URL.toString
                 (URL.set_search
                    (URLSearchParams.toString
                       (Index.applyDefaults (URLSearchParams.new (search request)) kind))
                    (URL.parse (Index.upstreamBase env kind))))
            :: rest.
Proof.
  intros HG. cbv zeta.
  split; [apply trim_spec |].
  split; [apply trim_no_trailing_slash |].
  split.
  { intros Hw. apply route_water in Hw. by rewrite Hw. }
  split.
  { intros Hf. apply route_flood in Hf. by rewrite Hf. }
  do 3 (split; [reflexivity |]).
  destruct (fetch_GET_trace request env w HG) as (rest & Ht & _). by exists rest.
Qed.

Lemma route_selection_witness :
  method water_request = "GET"
  /\ Index.route (pathname water_request) = Index.water
  /\ exists rest,
       trace (Index.fetch water_request sample_env (world_answering upstream_200)).2
       = CacheMatch
           ("https://gis.example/arcgis/MapServer/0/query"
            +:+ "?where=STATE%3D%27NSW%27&f=json&returnGeometry=true"
            +:+ "&outFields=*&resultRecordCount=1000")
         :: rest.
Proof.
  split; [reflexivity |].
  destruct (route_selection water_request sample_env (world_answering upstream_200)
              eq_refl) as (_ & _ & Hwater & _ & _ & _ & _ & Htrace).
  split; [apply Hwater; reflexivity | exact Htrace].
Defined.

(** C9. [applyDefaults] is idempotent: applied to its own result, for the same
    kind, it changes nothing. *)
Theorem applyDefaults_idempotent (sp : list (string * string)) (kind : Index.Kind) :
  Index.applyDefaults (Index.applyDefaults sp kind) kind = Index.applyDefaults sp kind.
Proof.
  rewrite (applyDefaults_spec (Index.applyDefaults sp kind)).
  rewrite applyDefaults_spec at 2.
  by rewrite missing_filled, app_nil_r.
Qed.

Lemma has_get (sp : list (string * string)) (n : string) :
  URLSearchParams.has sp n = true -> exists v, URLSearchParams.get sp n = Some v.
Proof.
  unfold URLSearchParams.has, URLSearchParams.get.
  induction sp as [| p r IH]; simpl; [done |].
  destruct (String.eqb p.1 n); simpl; eauto.
Qed.

(** C3. A parameter that the inbound query of a GET request has is forwarded
    with the client's values, unchanged: the forwarded query is the
    serialisation of the inbound parameters followed by defaults, none of them
    for that parameter. *)
Theorem client_values_win (request : Request) (env : Index.Env) (name : string) :
  let inbound := URLSearchParams.new (search request) in
  let kind := Index.route (pathname request) in
  let forwarded := Index.applyDefaults inbound kind in
  URLSearchParams.has inbound name = true ->
  URL.query (Index.upstreamURL request env) = Some (URLSearchParams.toString forwarded)
  /\ JS.split "&" (URLSearchParams.toString forwarded) = piece <$> forwarded
  /\ forwarded = inbound ++ missing inbound (Index.documented_defaults kind)
  /\ URLSearchParams.has (missing inbound (Index.documented_defaults kind)) name = false
  /\ URLSearchParams.getAll forwarded name = URLSearchParams.getAll inbound name
  /\ URLSearchParams.get forwarded name = URLSearchParams.get inbound name.
Proof.
  cbv zeta. intros Hhas.
  set (inbound := URLSearchParams.new (search request)) in *.
  set (kind := Index.route (pathname request)).
  assert (Hne : Index.applyDefaults inbound kind <> []).
  { rewrite applyDefaults_spec. destruct inbound; [discriminate | done]. }
  pose proof (has_missing inbound (Index.documented_defaults kind) name Hhas) as Hm.
  repeat split.
  - unfold Index.upstreamURL. cbv zeta. by apply query_set_search.
  - by apply split_toString.
  - apply applyDefaults_spec.
  - exact Hm.
  - rewrite applyDefaults_spec, getAll_app, (getAll_nil _ _ Hm). apply app_nil_r.
  - rewrite applyDefaults_spec, get_app.
    by destruct (has_get _ _ Hhas) as [v ->].
Qed.

Lemma client_values_win_witness :
  URLSearchParams.has (URLSearchParams.new (search water_request)) "where" = true
  /\ URLSearchParams.get
       (Index.applyDefaults (URLSearchParams.new (search water_request))
          (Index.route (pathname water_request))) "where"
     = Some "STATE='NSW'".
Proof.
  split; [reflexivity |].
  destruct (client_values_win water_request sample_env "where" eq_refl)
    as (_ & _ & _ & _ & _ & Hget).
  rewrite Hget. reflexivity.
Defined.

(** C10. [withCORS] keeps the status and the body of the response it wraps,
    and every header other than Access-Control-Allow-Origin,
    Access-Control-Allow-Methods, Access-Control-Allow-Headers and Vary. *)
Theorem withCORS_frame (res : Response) (originHeader : string)
    (reqOrigin : option string) (name : string) :
  JS.lower name ∉ cors_names ->
  status (withCORS res originHeader reqOrigin) = status res
  /\ body (withCORS res originHeader reqOrigin) = body res
  /\ Headers.get (headers (withCORS res originHeader reqOrigin)) name
     = Headers.get (headers res) name.
Proof.
  intros Hname.
  split; [apply status_withCORS |]. split; [apply body_withCORS |].
  by apply get_withCORS_other.
Qed.

Lemma withCORS_frame_witness :
  (JS.lower "Content-Type" ∉ cors_names)
  /\ status (withCORS upstream_500 "*" (Some "https://a.example")) = 500
  /\ body (withCORS upstream_500 "*" (Some "https://a.example"))
     = Some "Internal Server Error"
  /\ Headers.get (headers (withCORS upstream_500 "*" (Some "https://a.example")))
       "Content-Type" = Some "text/html".
Proof.
  assert (H : JS.lower "Content-Type" ∉ cors_names) by (by apply plain_header).
  split; [exact H |].
  exact (withCORS_frame upstream_500 "*" (Some "https://a.example") "Content-Type" H).
Defined.



(* ===================================================================== *)
(** * The cache write of a miss *)
(* ===================================================================== *)

(** X3. In src/index.ts a miss that gets an upstream response returns it with
    its status, and writes it to the cache exactly when the status is 2xx;
    the body returned is the bytes of the upstream body, for a status in
    200..599 that a response can have a body with. *)
Lemma index_caches_iff_ok (request : Request) (env : Index.Env) (w : World)
    (upstreamRes : Response) :
  let key := cacheKeyFromURL (Index.upstreamURL request env) in
  let url := URL.toString (Index.upstreamURL request env) in
  let fresh := normalize (Index.CACHE_TTL env) upstreamRes in
  let res := (Index.fetch request env w).1 in
  let w' := (Index.fetch request env w).2 in
  method request = "GET" ->
  edge_cache w !! key = None ->
  origin_server w url = Some upstreamRes ->
  res = withCORS fresh (Index.CORS_ORIGIN env) (reqOrigin_of request)
  /\ status res = status upstreamRes
  /\ (200 <= status upstreamRes <= 599 -> null_body_status (status upstreamRes) = false ->
      body res = Some (arrayBuffer upstreamRes))
  /\ (200 <= status upstreamRes <= 299 ->
      edge_cache w' = <[key := fresh]> (edge_cache w)
      /\ (exists hdrs, trace w' = trace w ++ [CacheMatch key; UpstreamFetch url "GET" hdrs;
                                              CachePut key fresh])
      /\ puts (trace w') = S (puts (trace w)))
  /\ (~ 200 <= status upstreamRes <= 299 ->
      edge_cache w' = edge_cache w
      /\ (exists hdrs, trace w' = trace w ++ [CacheMatch key; UpstreamFetch url "GET" hdrs])
      /\ puts (trace w') = puts (trace w)).
Proof.
  cbv zeta. intros HG Hmiss Hnet.
  rewrite (fetch_miss request env w upstreamRes) by done. cbv zeta. cbn [fst snd].
  assert (Hok : ok upstreamRes = true <-> 200 <= status upstreamRes <= 299).
  { unfold ok. rewrite andb_true_iff, !Z.leb_le. done. }
  split; [done |]. split; [done |]. split; [intros _ _; by rewrite body_withCORS |].
  unfold puts, record.
  destruct (ok upstreamRes) eqn:E; cbn [trace edge_cache].
  - split; [| intros Hn; destruct Hn; by apply Hok].
    intros _. split; [done |]. rewrite <- !app_assoc. cbn [app].
    split; [by eexists |].
    rewrite !List.filter_app, !length_app. simpl. lia.
  - split; [intros Hr; apply Hok in Hr; congruence |].
    intros _. split; [done |]. rewrite <- !app_assoc. cbn [app].
    split; [by eexists |].
    rewrite !List.filter_app, !length_app. simpl. lia.
Qed.

(** C1. The revision unnamed/part_001 caches an upstream error: for a GET
    request that misses the cache and gets a 500 from the upstream, the 500 is
    returned and also written to the cache, and the same request made again is
    answered from the cache without a fetch. *)
Theorem part001_caches_upstream_error :
  let w0 := world_answering upstream_500 in
  let key := cacheKeyFromURL (Part001.upstreamURL plain_request single_env_001) in
  let first := Part001.fetch plain_request single_env_001 w0 in
  let second := Part001.fetch plain_request single_env_001 first.2 in
  ok upstream_500 = false
  /\ edge_cache w0 !! key = None
  /\ status first.1 = 500
  /\ edge_cache first.2 !! key
     = Some (normalize (Part001.CACHE_TTL single_env_001) upstream_500)
  /\ puts (trace first.2) = 1%nat
  /\ status second.1 = 500
  /\ fetches (trace second.2) = fetches (trace first.2).
Proof. cbv zeta. repeat split; vm_compute; reflexivity. Qed.

(** The same request on src/index.ts and on unnamed/part_000: the 500 is
    returned and the cache stays empty. *)
Lemma index_drops_upstream_error :
  let first := Index.fetch plain_request sample_env (world_answering upstream_500) in
  status first.1 = 500 /\ edge_cache first.2 = ∅ /\ puts (trace first.2) = 0%nat.
Proof. cbv zeta. repeat split; vm_compute; reflexivity. Qed.

Lemma part000_drops_upstream_error :
  let first := Part000.fetch plain_request single_env_000 (world_answering upstream_500) in
  status first.1 = 500 /\ edge_cache first.2 = ∅ /\ puts (trace first.2) = 0%nat.
Proof. cbv zeta. repeat split; vm_compute; reflexivity. Qed.

(** X14. unnamed/part_001 writes every upstream response of a miss to the
    cache, whatever its status. *)
Lemma part001_caches_every_response (request : Request) (env : Part001.Env)
    (w : World) (upstreamRes : Response) :
  let key := cacheKeyFromURL (Part001.upstreamURL request env) in
  let url := URL.toString (Part001.upstreamURL request env) in
  let fresh := normalize (Part001.CACHE_TTL env) upstreamRes in
  let res := (Part001.fetch request env w).1 in
  let w' := (Part001.fetch request env w).2 in
  method request = "GET" ->
  edge_cache w !! key = None ->
  origin_server w url = Some upstreamRes ->
  status res = status upstreamRes
  /\ edge_cache w' = <[key := fresh]> (edge_cache w)
  /\ puts (trace w') = S (puts (trace w)).
Proof.
  cbv zeta. intros HG Hmiss Hnet.
  unfold Part001.fetch, bind, cache_match, fetch_upstream, cache_put, ret.
  rewrite HG.
  change (String.eqb "GET" "OPTIONS") with false.
  change (negb (String.eqb "GET" "GET")) with false.
  cbv beta iota zeta. rewrite Hmiss. cbn [edge_cache origin_server record].
  rewrite Hnet. cbn [fst snd edge_cache trace].
  repeat split. unfold record. cbn [trace].
  unfold puts. rewrite !List.filter_app, !length_app. simpl. lia.
Qed.

(* ===================================================================== *)
(** * The defaults of the forwarded query *)
(* ===================================================================== *)

Section Defaults.

Import URLSearchParams.

Lemma has_names_false (table : list (string * string)) (n : string) :
  n ∉ table.*1 -> has table n = false.
Proof.
  intros Hn. apply has_false. intros v Hin. apply Hn.
  apply list_elem_of_fmap. by exists (n, v).
Qed.

(** A default that is lacking is found, once, among the appended defaults. *)
Lemma get_missing (sp table : list (string * string)) (n v : string) :
  NoDup table.*1 -> (n, v) ∈ table -> has sp n = false ->
  get (missing sp table) n = Some v /\ getAll (missing sp table) n = [v].
Proof.
  intros Hnd Hin Hsp. induction table as [| [k x] r IH]; [by apply elem_of_nil in Hin |].
  rewrite fmap_cons in Hnd. apply NoDup_cons in Hnd as [Hk Hr]. simpl in Hk.
  apply elem_of_cons in Hin as [[= -> ->] | Hin].
  - unfold missing. simpl. rewrite Hsp. simpl.
    unfold get, getAll. simpl. rewrite String.eqb_refl. simpl. split; [done |].
    f_equal. apply getAll_nil. apply has_missing_other. by apply has_names_false.
  - assert (Hne : String.eqb k n = false).
    { apply String.eqb_neq. intros ->. apply Hk.
      apply list_elem_of_fmap. by exists (n, v). }
    destruct (IH Hr Hin) as [IH1 IH2].
    unfold missing. simpl. destruct (has sp k); simpl; [done |].
    unfold get, getAll. simpl. by rewrite Hne.
Qed.

Lemma documented_defaults_NoDup (kind : Index.Kind) :
  NoDup (Index.documented_defaults kind).*1.
Proof. destruct kind; apply (bool_decide_unpack _); vm_compute; exact I. Qed.

(** X8. In src/index.ts every documented default that the inbound query lacks
    is in the forwarded query, once and with the documented value. *)
Lemma index_fills_defaults (request : Request) (env : Index.Env) (name value : string) :
  let inbound := new (search request) in
  let kind := Index.route (pathname request) in
  let forwarded := Index.applyDefaults inbound kind in
  (name, value) ∈ Index.documented_defaults kind ->
  has inbound name = false ->
  URL.query (Index.upstreamURL request env) = Some (toString forwarded)
  /\ get forwarded name = Some value
  /\ getAll forwarded name = [value]
  /\ piece (name, value) ∈ JS.split "&" (toString forwarded).
Proof.
  cbv zeta. intros Hin Habsent.
  set (inbound := new (search request)) in *.
  set (kind := Index.route (pathname request)) in *.
  destruct (get_missing inbound _ name value (documented_defaults_NoDup kind) Hin Habsent)
    as [Hget HgetAll].
  assert (Hmem : (name, value) ∈ Index.applyDefaults inbound kind).
  { rewrite applyDefaults_spec, elem_of_app. right. by apply missing_In. }
  assert (Hne : Index.applyDefaults inbound kind <> []).
  { intros E. rewrite E in Hmem. by apply elem_of_nil in Hmem. }
  repeat split.
  - unfold Index.upstreamURL. cbv zeta. by apply query_set_search.
  - by rewrite applyDefaults_spec, get_app, (get_None _ _ Habsent).
  - by rewrite applyDefaults_spec, getAll_app, (getAll_nil _ _ Habsent).
  - rewrite split_toString by done. by apply list_elem_of_fmap_2.
Qed.

(** unnamed/part_001 appends four defaults; [where] is not one of them. *)
Lemma part001_defaults_spec (sp : list (string * string)) :
  Part001.defaults sp
  = sp ++ missing sp [ ("f", "geojson"); ("returnGeometry", "true");
                       ("resultRecordCount", "200"); ("outFields", "*") ].
Proof.
  unfold Part001.defaults. cbv zeta. rewrite !fill_eq.
  do 3 (rewrite (fill_after sp) by reflexivity; cbn [app]).
  reflexivity.
Qed.

Lemma part001_never_adds_where (sp : list (string * string)) :
  has sp "where" = false -> has (Part001.defaults sp) "where" = false.
Proof.
  intros H. rewrite part001_defaults_spec, has_app, H.
  by rewrite has_missing_other.
Qed.

End Defaults.

(** C2. The revision unnamed/part_001 forwards a query without [where] when
    the inbound query has none: for [GET /] without a query, the forwarded
    query has the defaults of [f], [returnGeometry], [resultRecordCount] and
    [outFields] only. *)
Theorem part001_forwards_no_where :
  let inbound := URLSearchParams.new (search plain_request) in
  let upstream := Part001.upstreamURL plain_request single_env_001 in
  let w' := (Part001.fetch plain_request single_env_001
               (world_answering upstream_200)).2 in
  URLSearchParams.has inbound "where" = false
  /\ URL.query upstream
     = Some "f=geojson&returnGeometry=true&resultRecordCount=200&outFields=*"
  /\ URLSearchParams.has (Part001.defaults inbound) "where" = false
  /\ head (trace w') = Some (CacheMatch (URL.toString upstream))
  /\ fetches (trace w') = 1%nat.
Proof. cbv zeta. repeat split; vm_compute; reflexivity. Qed.

(** The same request on src/index.ts and on unnamed/part_000. *)
Lemma index_forwards_where :
  URL.query (Index.upstreamURL plain_request sample_env)
  = Some "f=geojson&returnGeometry=true&outFields=*&where=1%3D1&resultRecordCount=500".
Proof. vm_compute. reflexivity. Qed.

Lemma part000_forwards_where :
  URL.query (Part000.upstreamURL plain_request single_env_000)
  = Some "f=geojson&returnGeometry=true&resultRecordCount=200&outFields=*&where=1%3D1".
Proof. vm_compute. reflexivity. Qed.

(* ===================================================================== *)
(** * Cache-Control *)
(* ===================================================================== *)

Lemma or_else_set (s d : string) : s <> "" -> JS.or_else (Some s) d = s.
Proof. by destruct s. Qed.

Lemma get_normalize_cache_control (ttl : option string) (upstreamRes : Response) :
  Headers.get (headers (normalize ttl upstreamRes)) "Cache-Control"
  = Some (cacheControl ttl).
Proof. unfold normalize. cbv zeta. cbn [headers new_Response]. apply get_set_same. Qed.

(** C4. The default of 3600 misses the unparsable case:
    [parseInt(env.CACHE_TTL || "3600", 10)] falls back only for a value that
    is unset or empty.  With CACHE_TTL set to the text [one hour], the
    Cache-Control header of a miss reads [max-age=NaN, s-maxage=NaN], not
    [max-age=3600, s-maxage=3600], and the copy written to the cache reads
    the same. *)
Lemma cache_control_of_text_ttl :
  let key := cacheKeyFromURL (Index.upstreamURL plain_request env_ttl_text) in
  let run := Index.fetch plain_request env_ttl_text (world_answering upstream_200) in
  Index.CACHE_TTL env_ttl_text = Some "one hour"
  /\ JS.parseInt "one hour" 10 = JS.NaN
  /\ Headers.get (headers run.1) "Cache-Control"
     = Some "public, max-age=NaN, s-maxage=NaN, stale-while-revalidate=60"
  /\ Headers.get (headers run.1) "Cache-Control"
     <> Some "public, max-age=3600, s-maxage=3600, stale-while-revalidate=60"
  /\ (headers <$> edge_cache run.2 !! key) ≫= (fun h => Headers.get h "Cache-Control")
     = Some "public, max-age=NaN, s-maxage=NaN, stale-while-revalidate=60".
Proof.
  cbv zeta. split; [reflexivity |]. split; [reflexivity |].
  split; [vm_compute; reflexivity |].
  split; [vm_compute; discriminate |].
  vm_compute. reflexivity.
Qed.

(** The Cache-Control header of a miss that gets an upstream response, by
    what CACHE_TTL holds: 3600 when it is unset or empty; the integer that
    [parseInt] reads at its start, for a safe integer; and NaN for every value
    that does not start with an integer, which is the case that the default
    misses. *)
Lemma cache_control_on_miss (request : Request) (env : Index.Env) (w : World)
    (upstreamRes : Response) :
  let key := cacheKeyFromURL (Index.upstreamURL request env) in
  let url := URL.toString (Index.upstreamURL request env) in
  let header := Headers.get (headers (Index.fetch request env w).1) "Cache-Control" in
  method request = "GET" ->
  edge_cache w !! key = None ->
  origin_server w url = Some upstreamRes ->
  (Index.CACHE_TTL env = None \/ Index.CACHE_TTL env = Some "" ->
   header = Some "public, max-age=3600, s-maxage=3600, stale-while-revalidate=60")
  /\ (forall s z, Index.CACHE_TTL env = Some s -> s <> "" ->
      JS.parseInt s 10 = JS.Int z -> JS.is_safe_integer z ->
      header = Some ("public, max-age=" +:+ pretty z +:+ ", s-maxage=" +:+ pretty z
                     +:+ ", stale-while-revalidate=60"))
  /\ (forall s, Index.CACHE_TTL env = Some s -> s <> "" ->
      JS.parseInt s 10 = JS.NaN ->
      header = Some "public, max-age=NaN, s-maxage=NaN, stale-while-revalidate=60").
Proof.
  cbv zeta. intros HG Hmiss Hnet.
  rewrite (fetch_miss request env w upstreamRes) by done. cbv zeta. cbn [fst].
  rewrite get_withCORS_other by (by apply plain_header).
  rewrite get_normalize_cache_control.
  split; [by intros [-> | ->] |].
  split.
  - intros s z -> Hs Hp _. unfold cacheControl. cbv zeta.
    by rewrite (or_else_set s) by done; rewrite Hp.
  - intros s -> Hs Hp. unfold cacheControl. cbv zeta.
    by rewrite (or_else_set s) by done; rewrite Hp.
Qed.

(* ===================================================================== *)
(** * CORS decoration *)
(* ===================================================================== *)

Lemma reqOrigin_some (request : Request) (o : string) :
  Headers.get (req_headers request) "Origin" = Some o -> o <> "" ->
  reqOrigin_of request = Some o.
Proof. unfold reqOrigin_of. intros -> Ho. by destruct o. Qed.

Lemma reqOrigin_none (request : Request) :
  Headers.get (req_headers request) "Origin" = None
  \/ Headers.get (req_headers request) "Origin" = Some "" ->
  reqOrigin_of request = None.
Proof. unfold reqOrigin_of. by intros [-> | ->]. Qed.

Lemma reqOrigin_cases (request : Request) (o : string) :
  reqOrigin_of request = Some o ->
  Headers.get (req_headers request) "Origin" = Some o /\ o <> "".
Proof.
  unfold reqOrigin_of, JS.or_undefined.
  destruct (Headers.get (req_headers request) "Origin") as [[| c r] |]; simpl; try done.
  by intros [= <-].
Qed.

Lemma get_normalize_allow (ttl : option string) (upstreamRes : Response) :
  Headers.get (headers (normalize ttl upstreamRes)) "Access-Control-Allow-Origin"
  = Headers.get (headers upstreamRes) "Access-Control-Allow-Origin".
Proof.
  unfold normalize. cbv zeta. cbn [headers new_Response].
  by rewrite !get_set_other by (vm_compute; discriminate).
Qed.

(** C5. [withCORS] never removes an Access-Control-Allow-Origin header that it
    copied from the response it wraps.  The allow-list names
    https://a.example and https://b.example and no wildcard, the request
    comes from https://c.example, the upstream answers with
    [Access-Control-Allow-Origin: *], and the response of the handler carries
    that header, where the claim has it omitted. *)
Lemma allow_origin_kept_from_upstream :
  let allowList := JS.trim <$> JS.split "," (Index.CORS_ORIGIN sample_env) in
  let run := Index.fetch plain_request sample_env (world_answering upstream_200_open) in
  Headers.get (req_headers plain_request) "Origin" = Some "https://c.example"
  /\ JS.includes allowList "https://c.example" = false
  /\ JS.includes allowList "*" = false
  /\ status run.1 = 200
  /\ Headers.get (headers run.1) "Access-Control-Allow-Origin" = Some "*".
Proof. cbv zeta. repeat split; vm_compute; reflexivity. Qed.

(** What the handler does about Access-Control-Allow-Origin, in every case.
    Every response carries the three fixed CORS headers. A present, non-empty
    Origin that is on the trimmed allow-list, or any such Origin when the list
    has the wildcard, is echoed; without an Origin (or with an empty one) and
    with the wildcard on the list the header is [*]; otherwise the handler
    does not write the header: the 204, 405 and 504 responses have none,
    while a cached or upstream response keeps the one it came with, which is
    the defect of C5. *)
Lemma cors_decoration (request : Request) (env : Index.Env) (w : World) :
  let key := cacheKeyFromURL (Index.upstreamURL request env) in
  let url := URL.toString (Index.upstreamURL request env) in
  let res := (Index.fetch request env w).1 in
  let allowList := JS.trim <$> JS.split "," (Index.CORS_ORIGIN env) in
  let origin := Headers.get (req_headers request) "Origin" in
  let allowed := Headers.get (headers res) "Access-Control-Allow-Origin" in
  cors_fixed (headers res)
  /\ (forall o, origin = Some o -> o <> "" -> o ∈ allowList \/ "*" ∈ allowList ->
      allowed = Some o)
  /\ (origin = None \/ origin = Some "" -> "*" ∈ allowList -> allowed = Some "*")
  /\ ("*" ∉ allowList -> (forall o, origin = Some o -> o = "" \/ o ∉ allowList) ->
      (method request <> "GET" -> allowed = None)
      /\ (method request = "GET" -> forall hit, edge_cache w !! key = Some hit ->
          allowed = Headers.get (headers hit) "Access-Control-Allow-Origin")
      /\ (method request = "GET" -> edge_cache w !! key = None ->
          origin_server w url = None -> allowed = None)
      /\ (method request = "GET" -> edge_cache w !! key = None ->
          forall upstreamRes, origin_server w url = Some upstreamRes ->
          allowed = Headers.get (headers upstreamRes) "Access-Control-Allow-Origin")).
Proof.
  cbv zeta.
  destruct (fetch_wraps request env w) as (inner & Hres & Hcases).
  rewrite Hres.
  destruct (withCORS_allow_origin inner (Index.CORS_ORIGIN env) (reqOrigin_of request))
    as (Hecho & Hstar & Hkeep).
  split; [apply withCORS_fixed |].
  split.
  { intros o Ho Hne Hin. apply Hecho; [by apply reqOrigin_some | done | done]. }
  split.
  { intros Ho Hin. apply Hstar; [| done]. by rewrite reqOrigin_none. }
  intros Hnostar Hunlisted.
  rewrite Hkeep; [| done |].
  2: { intros o Ho. apply reqOrigin_cases in Ho as [Ho Hne].
       destruct (Hunlisted o Ho) as [-> | Hn]; [done | by right]. }
  destruct Hcases as [[HO ->] | [(HO & HG & ->) | [[HG Hhit] | [(HG & Hmiss & Hnet & ->)
                     | (HG & Hmiss & up & Hnet & ->)]]]].
  all: repeat split; intros; rewrite ?get_normalize_allow; try done; congruence.
Qed.

(** On a response that comes without the header, [withCORS] for the Origin of
    a request decides as [origin_decision] says. *)
Lemma withCORS_origin_decision (request : Request) (inner : Response)
    (originHeader : string) :
  Headers.get (headers inner) "Access-Control-Allow-Origin" = None ->
  origin_decision originHeader (Headers.get (req_headers request) "Origin")
    (Headers.get (headers (withCORS inner originHeader (reqOrigin_of request)))
       "Access-Control-Allow-Origin").
Proof.
  intros Hnone.
  destruct (withCORS_allow_origin inner originHeader (reqOrigin_of request))
    as (Hecho & Hstar & Hkeep).
  unfold origin_decision. cbv zeta. split; [| split].
  - intros o Ho Hne Hin. apply Hecho; [by apply reqOrigin_some | done | done].
  - intros Ho Hin. apply Hstar; [| done]. by rewrite reqOrigin_none.
  - intros Hnostar Hunlisted. rewrite Hkeep; [done | done |].
    intros o Ho. apply reqOrigin_cases in Ho as [Ho Hne].
    destruct (Hunlisted o Ho) as [-> | Hn]; [done | by right].
Qed.

(** C7. Method gating: OPTIONS is answered 204 with no body, and any method
    other than GET and OPTIONS is answered 405, both with the CORS headers:
    the three fixed ones, and Access-Control-Allow-Origin decided from the
    Origin header of the request and the allow-list (echoed when allowed, [*]
    for the wildcard without an Origin, none otherwise); in both cases
    without a call on the cache or on the upstream; GET alone goes on, to the
    cache lookup for its upstream URL. *)
Theorem method_gating (request : Request) (env : Index.Env) (w : World) :
  let res := (Index.fetch request env w).1 in
  let w' := (Index.fetch request env w).2 in
  let decided :=
    origin_decision (Index.CORS_ORIGIN env) (Headers.get (req_headers request) "Origin")
      (Headers.get (headers res) "Access-Control-Allow-Origin") in
  (method request = "OPTIONS" ->
     status res = 204 /\ body res = None /\ cors_fixed (headers res) /\ w' = w
     /\ decided)
  /\ (method request <> "OPTIONS" -> method request <> "GET" ->
     status res = 405 /\ cors_fixed (headers res) /\ w' = w
     /\ body res = Some "Method Not Allowed" /\ decided)
  /\ (method request = "GET" ->
     exists rest,
       trace w' = trace w
                  ++ CacheMatch (cacheKeyFromURL (Index.upstreamURL request env)) :: rest)
  /\ (trace w' <> trace w -> method request = "GET").
Proof.
  cbv zeta. split; [| split; [| split]].
  - intros HO. rewrite fetch_OPTIONS by done. cbn [fst snd].
    split; [apply status_withCORS |]. split; [by rewrite body_withCORS |].
    split; [apply withCORS_fixed |]. split; [done |].
    by apply withCORS_origin_decision.
  - intros HO HG. rewrite fetch_not_allowed by done. cbn [fst snd].
    split; [apply status_withCORS |]. split; [apply withCORS_fixed |].
    split; [done |]. split; [by rewrite body_withCORS |].
    by apply withCORS_origin_decision.
  - intros HG. destruct (fetch_GET_trace request env w HG) as (rest & Ht & _).
    by exists rest.
  - intros Hne. destruct (String.eqb_spec (method request) "GET") as [| HG]; [done |].
    destruct (String.eqb_spec (method request) "OPTIONS") as [HO | HO].
    + by rewrite fetch_OPTIONS in Hne.
    + by rewrite fetch_not_allowed in Hne.
Qed.

(** The three cases of the allow-list [https://a.example, https://b.example]
    and of the wildcard, on responses that come without the header. *)
Example cors_examples :
  let list := "https://a.example, https://b.example" in
  let allowed (originHeader : string) (reqOrigin : option string) :=
    Headers.get (headers (withCORS upstream_error originHeader reqOrigin))
      "Access-Control-Allow-Origin" in
  allowed list (Some "https://a.example") = Some "https://a.example"
  /\ allowed list (Some "https://b.example") = Some "https://b.example"
  /\ allowed list (Some "https://c.example") = None
  /\ allowed "*" None = Some "*"
  /\ allowed "*" (Some "https://c.example") = Some "https://c.example"
  /\ allowed list None = None.
Proof. cbv zeta. repeat split; vm_compute; reflexivity. Qed.

(** A POST and a preflight, end to end. *)
Example gating_examples :
  let post := Index.fetch post_request sample_env world_unreachable in
  let preflight := Index.fetch options_request sample_env world_unreachable in
  status post.1 = 405
  /\ body post.1 = Some "Method Not Allowed"
  /\ trace post.2 = []
  /\ status preflight.1 = 204
  /\ body preflight.1 = None
  /\ Headers.get (headers preflight.1) "Access-Control-Allow-Origin"
     = Some "https://b.example"
  /\ trace preflight.2 = [].
Proof. cbv zeta. repeat split; vm_compute; reflexivity. Qed.

(* ===================================================================== *)
(** * Further properties of src/index.ts: what a request does to the world *)
(* ===================================================================== *)

(** X1. A cache hit (index.ts, lines 92-95): the stored response is returned
    with its status, its body and every header that [withCORS] does not
    write; the upstream is not contacted and the cache is not written; the
    one call made is the lookup. *)
Theorem cache_hit (request : Request) (env : Index.Env) (w : World) (hit : Response) :
  let key := cacheKeyFromURL (Index.upstreamURL request env) in
  let res := (Index.fetch request env w).1 in
  let w' := (Index.fetch request env w).2 in
  method request = "GET" ->
  edge_cache w !! key = Some hit ->
  status res = status hit
  /\ body res = body hit
  /\ (forall name, JS.lower name ∉ cors_names ->
      Headers.get (headers res) name = Headers.get (headers hit) name)
  /\ cors_fixed (headers res)
  /\ edge_cache w' = edge_cache w
  /\ origin_server w' = origin_server w
  /\ trace w' = trace w ++ [CacheMatch key].
Proof.
  cbv zeta. intros HG Hhit. rewrite (fetch_hit request env w hit) by done.
  cbn [fst snd]. split; [apply status_withCORS |]. split; [apply body_withCORS |].
  split; [intros name Hn; by apply get_withCORS_other |].
  split; [apply withCORS_fixed |]. done.
Qed.

Lemma cache_hit_witness :
  method plain_request = "GET"
  /\ edge_cache world_cached
       !! cacheKeyFromURL (Index.upstreamURL plain_request sample_env) = Some stored_200
  /\ status (Index.fetch plain_request sample_env world_cached).1 = 200
  /\ body (Index.fetch plain_request sample_env world_cached).1 = Some "{}"
  /\ fetches (trace (Index.fetch plain_request sample_env world_cached).2) = 0%nat.
Proof.
  do 2 (split; [reflexivity |]).
  destruct (cache_hit plain_request sample_env world_cached stored_200 eq_refl eq_refl)
    as (Hs & Hb & _ & _ & _ & _ & Ht).
  split; [exact Hs |]. split; [exact Hb |]. rewrite Ht. reflexivity.
Defined.

Lemma index_caches_iff_ok_witness :
  method water_request = "GET"
  /\ edge_cache (world_answering upstream_500)
       !! cacheKeyFromURL (Index.upstreamURL water_request sample_env) = None
  /\ origin_server (world_answering upstream_500)
       (URL.toString (Index.upstreamURL water_request sample_env)) = Some upstream_500
  /\ status (Index.fetch water_request sample_env (world_answering upstream_500)).1 = 500
  /\ edge_cache (Index.fetch water_request sample_env (world_answering upstream_500)).2
     = ∅.
Proof.
  do 3 (split; [reflexivity |]).
  destruct (index_caches_iff_ok water_request sample_env (world_answering upstream_500)
              upstream_500 eq_refl eq_refl eq_refl)
    as (_ & Hs & _ & _ & Hno).
  split; [exact Hs |].
  destruct Hno as [Hc _]; [simpl; lia | exact Hc].
Defined.

(** X4. No negative caching (index.ts, lines 102-120 and 131-134): when a GET
    request misses and the upstream fails or answers outside 2xx, the cache
    has no entry for it afterwards, and the same request made again goes to
    the upstream again and is answered as the first time. *)
Theorem failure_not_cached (request : Request) (env : Index.Env) (w : World) :
  let key := cacheKeyFromURL (Index.upstreamURL request env) in
  let url := URL.toString (Index.upstreamURL request env) in
  let once := Index.fetch request env w in
  let twice := Index.fetch request env once.2 in
  method request = "GET" ->
  edge_cache w !! key = None ->
  match origin_server w url with
  | Some upstreamRes => ok upstreamRes = false
  | None => True
  end ->
  edge_cache once.2 !! key = None
  /\ twice.1 = once.1
  /\ fetches (trace once.2) = S (fetches (trace w))
  /\ fetches (trace twice.2) = S (S (fetches (trace w)))
  /\ puts (trace twice.2) = puts (trace w).
Proof.
  cbv zeta. intros HG Hmiss Hup.
  destruct (origin_server w (URL.toString (Index.upstreamURL request env)))
    as [up |] eqn:Hnet.
  - rewrite (fetch_miss request env w up) by done. cbv zeta. rewrite Hup. cbn [fst snd].
    rewrite (fetch_miss request env _ up) by done. cbv zeta. rewrite Hup. cbn [fst snd].
    unfold record. cbn [trace edge_cache].
    unfold fetches, puts. rewrite !List.filter_app, !length_app. simpl.
    repeat split; try done; lia.
  - rewrite (fetch_unreachable request env w) by done. cbn [fst snd].
    rewrite (fetch_unreachable request env _) by done. cbn [fst snd].
    unfold record. cbn [trace edge_cache].
    unfold fetches, puts. rewrite !List.filter_app, !length_app. simpl.
    repeat split; try done; lia.
Qed.

Lemma failure_not_cached_witness :
  method plain_request = "GET"
  /\ edge_cache (world_answering upstream_500)
       !! cacheKeyFromURL (Index.upstreamURL plain_request sample_env) = None
  /\ ok upstream_500 = false
  /\ fetches (trace (Index.fetch plain_request sample_env
                       (Index.fetch plain_request sample_env
                          (world_answering upstream_500)).2).2) = 2%nat.
Proof.
  do 3 (split; [reflexivity |]).
  exact (proj1 (proj2 (proj2 (proj2
           (failure_not_cached plain_request sample_env (world_answering upstream_500)
              eq_refl eq_refl eq_refl))))).
Defined.

Lemma get_normalize_other (ttl : option string) (upstreamRes : Response) (name : string) :
  JS.lower name ∉ normalized_names ->
  Headers.get (headers (normalize ttl upstreamRes)) name
  = Headers.get (headers upstreamRes) name.
Proof.
  intros Hn. unfold normalized_names in Hn.
  rewrite !not_elem_of_cons in Hn. destruct Hn as (H1 & H2 & _).
  unfold normalize. cbv zeta. cbn [headers new_Response].
  rewrite (get_set_other _ "Cache-Control") by (intros E; apply H2; by rewrite <- E).
  by rewrite (get_set_other _ "Content-Type") by (intros E; apply H1; by rewrite <- E).
Qed.

(** X5. Normalisation of a miss (index.ts, lines 122-129 and 136): for an
    upstream response whose status is in 200..599 and is none of the statuses
    without a body (101, 204, 205, 304), whatever its headers, the returned
    response has the content type [application/json; charset=utf-8], the
    status and the bytes of the upstream response, and every upstream header
    other than Content-Type, Cache-Control and the four that [withCORS]
    writes, unchanged. *)
Theorem miss_normalized (request : Request) (env : Index.Env) (w : World)
    (upstreamRes : Response) :
  let key := cacheKeyFromURL (Index.upstreamURL request env) in
  let url := URL.toString (Index.upstreamURL request env) in
  let res := (Index.fetch request env w).1 in
  method request = "GET" ->
  edge_cache w !! key = None ->
  origin_server w url = Some upstreamRes ->
  200 <= status upstreamRes <= 599 ->
  null_body_status (status upstreamRes) = false ->
  Headers.get (headers res) "Content-Type" = Some "application/json; charset=utf-8"
  /\ status res = status upstreamRes
  /\ body res = Some (arrayBuffer upstreamRes)
  /\ (forall name, JS.lower name ∉ cors_names -> JS.lower name ∉ normalized_names ->
      Headers.get (headers res) name = Headers.get (headers upstreamRes) name).
Proof.
  cbv zeta. intros HG Hmiss Hnet _ _.
  rewrite (fetch_miss request env w upstreamRes) by done. cbv zeta. cbn [fst].
  split.
  { rewrite get_withCORS_other by (by apply plain_header).
    unfold normalize. cbv zeta. cbn [headers new_Response].
    rewrite get_set_other by (vm_compute; discriminate). apply get_set_same. }
  split; [done |]. split; [by rewrite body_withCORS |].
  intros name Hc Hn. rewrite get_withCORS_other by done. by apply get_normalize_other.
Qed.

Lemma miss_normalized_witness :
  method plain_request = "GET"
  /\ edge_cache (world_answering upstream_500)
       !! cacheKeyFromURL (Index.upstreamURL plain_request sample_env) = None
  /\ origin_server (world_answering upstream_500)
       (URL.toString (Index.upstreamURL plain_request sample_env)) = Some upstream_500
  /\ 200 <= status upstream_500 <= 599
  /\ null_body_status (status upstream_500) = false
  /\ Headers.get
       (headers (Index.fetch plain_request sample_env (world_answering upstream_500)).1)
       "Content-Type" = Some "application/json; charset=utf-8".
Proof.
  do 3 (split; [reflexivity |]).
  split; [simpl; lia |]. split; [reflexivity |].
  assert (Hst : 200 <= status upstream_500 <= 599) by (simpl; lia).
  exact (proj1 (miss_normalized plain_request sample_env (world_answering upstream_500)
                  upstream_500 eq_refl eq_refl eq_refl Hst eq_refl)).
Defined.

(** X6. What one request does to the world (index.ts, the whole of [fetch]),
    case by case and call by call.  A request that is not a GET makes no
    call.  A GET makes one cache lookup for its upstream URL, first; on a hit
    nothing else; on a miss one fetch of that URL, a GET that accepts JSON,
    next; and after a 2xx response, and only then, one cache write of the
    normalised response under that key, last.  The upstream is left as it
    was, no cache entry that exists is removed or replaced, and no entry
    under another key appears. *)
Theorem effects_bounded (request : Request) (env : Index.Env) (w : World) :
  let key := cacheKeyFromURL (Index.upstreamURL request env) in
  let w' := (Index.fetch request env w).2 in
  let lookup := CacheMatch key in
  let get := UpstreamFetch key "GET"
               (Headers.set "Accept" "application/json" Headers.empty) in
  (method request <> "GET" -> trace w' = trace w /\ edge_cache w' = edge_cache w)
  /\ (method request = "GET" -> forall hit, edge_cache w !! key = Some hit ->
      trace w' = trace w ++ [lookup] /\ edge_cache w' = edge_cache w)
  /\ (method request = "GET" -> edge_cache w !! key = None ->
      origin_server w key = None ->
      trace w' = trace w ++ [lookup; get] /\ edge_cache w' = edge_cache w)
  /\ (method request = "GET" -> edge_cache w !! key = None ->
      forall upstreamRes, origin_server w key = Some upstreamRes ->
      ok upstreamRes = false ->
      trace w' = trace w ++ [lookup; get] /\ edge_cache w' = edge_cache w)
  /\ (method request = "GET" -> edge_cache w !! key = None ->
      forall upstreamRes, origin_server w key = Some upstreamRes ->
      ok upstreamRes = true ->
      trace w' = trace w ++ [lookup; get;
                             CachePut key (normalize (Index.CACHE_TTL env) upstreamRes)]
      /\ edge_cache w' = <[key := normalize (Index.CACHE_TTL env) upstreamRes]>
                           (edge_cache w))
  /\ origin_server w' = origin_server w
  /\ (forall k r, edge_cache w !! k = Some r -> edge_cache w' !! k = Some r)
  /\ (forall k, k <> key -> edge_cache w' !! k = edge_cache w !! k).
Proof.
  cbv zeta.
  assert (Hother : method request <> "GET" -> (Index.fetch request env w).2 = w).
  { intros HG. destruct (String.eqb_spec (method request) "OPTIONS") as [HO | HO].
    - by rewrite fetch_OPTIONS.
    - by rewrite fetch_not_allowed. }
  split; [intros HG; by rewrite Hother |].
  split.
  { intros HG hit Hhit. by rewrite (fetch_hit request env w hit). }
  split.
  { intros HG Hmiss Hnet. rewrite (fetch_unreachable request env w) by done.
    cbn [snd]. unfold record. cbn [trace edge_cache]. by rewrite <- app_assoc. }
  split.
  { intros HG Hmiss up Hnet Hok. rewrite (fetch_miss request env w up) by done.
    cbv zeta. rewrite Hok. cbn [snd]. unfold record. cbn [trace edge_cache].
    by rewrite <- app_assoc. }
  split.
  { intros HG Hmiss up Hnet Hok. rewrite (fetch_miss request env w up) by done.
    cbv zeta. rewrite Hok. cbn [snd]. unfold record. cbn [trace edge_cache].
    by rewrite <- !app_assoc. }
  destruct (String.eqb_spec (method request) "GET") as [HG | HG];
    [| rewrite (Hother HG); done].
  destruct (edge_cache w !! cacheKeyFromURL (Index.upstreamURL request env))
    as [hit |] eqn:Hc.
  { by rewrite (fetch_hit request env w hit). }
  destruct (origin_server w (URL.toString (Index.upstreamURL request env)))
    as [up |] eqn:Hn.
  - rewrite (fetch_miss request env w up) by done. cbv zeta.
    destruct (ok up); cbn [snd]; unfold record; cbn [edge_cache origin_server];
      [| done].
    split; [done |]. split.
    + intros k r Hk. rewrite lookup_insert_ne; [done |]. congruence.
    + intros k Hk. by rewrite lookup_insert_ne.
  - by rewrite (fetch_unreachable request env w).
Qed.

Lemma route_append_slashes (path : string) (n : nat) :
  Index.route (path +:+ slashes n) = Index.route path.
Proof. unfold Index.route. cbv zeta. by rewrite trim_append_slashes. Qed.

(** X7. Trailing slashes of the path change nothing (index.ts, lines 77-78):
    a request whose path has further slashes at its end is handled exactly as
    the request without them, in response and in effect on the world. *)
Theorem trailing_slashes_ignored (request : Request) (n : nat) (env : Index.Env)
    (w : World) :
  Index.fetch (with_pathname request (pathname request +:+ slashes n)) env w
  = Index.fetch request env w.
Proof.
  unfold Index.fetch, Index.upstreamURL, reqOrigin_of, with_pathname.
  cbn [method pathname search req_headers].
  by rewrite route_append_slashes.
Qed.

Lemma index_fills_defaults_witness :
  (("where", "1=1") ∈ Index.documented_defaults (Index.route (pathname plain_request)))
  /\ URLSearchParams.has (URLSearchParams.new (search plain_request)) "where" = false
  /\ (piece ("where", "1=1")
      ∈ JS.split "&"
          (URLSearchParams.toString
             (Index.applyDefaults (URLSearchParams.new (search plain_request))
                (Index.route (pathname plain_request))))).
Proof.
  assert (Hin : ("where", "1=1")
                ∈ Index.documented_defaults (Index.route (pathname plain_request))).
  { apply (bool_decide_unpack _). vm_compute. exact I. }
  split; [exact Hin |]. split; [reflexivity |].
  exact (proj2 (proj2 (proj2
           (index_fills_defaults plain_request sample_env "where" "1=1" Hin eq_refl)))).
Defined.

Lemma has_missing_eq (sp table : list (string * string)) (n : string) :
  URLSearchParams.has (missing sp table) n
  = negb (URLSearchParams.has sp n) && URLSearchParams.has table n.
Proof.
  destruct (URLSearchParams.has sp n) eqn:Hsp; simpl.
  - by apply has_missing.
  - destruct (URLSearchParams.has table n) eqn:Ht.
    + apply has_true in Ht as [v Hv]. apply has_true. exists v. by apply missing_In.
    + by apply has_missing_other.
Qed.

(** X9. [applyDefaults] invents nothing (index.ts, lines 44-57): the names of
    its result are the inbound names and the five default names, the inbound
    pairs come first and unchanged, and at most five pairs are added. *)
Theorem applyDefaults_names (sp : list (string * string)) (kind : Index.Kind)
    (name : string) :
  URLSearchParams.has (Index.applyDefaults sp kind) name
  = URLSearchParams.has sp name
    || bool_decide (name ∈ ["f"; "returnGeometry"; "outFields"; "where";
                             "resultRecordCount"])
  /\ take (length sp) (Index.applyDefaults sp kind) = sp
  /\ (length sp <= length (Index.applyDefaults sp kind) <= length sp + 5)%nat.
Proof.
  rewrite applyDefaults_spec. split; [| split].
  - rewrite has_app, has_missing_eq.
    assert (Ht : URLSearchParams.has (Index.documented_defaults kind) name
                 = bool_decide (name ∈ ["f"; "returnGeometry"; "outFields"; "where";
                                         "resultRecordCount"])).
    { unfold URLSearchParams.has, Index.documented_defaults. cbn [existsb fst].
      rewrite orb_false_r.
      repeat match goal with
             | |- context [String.eqb ?a name] =>
                 destruct (String.eqb_spec a name) as [<- | ?]; [by destruct kind |]
             end.
      symmetry. apply bool_decide_eq_false. rewrite !not_elem_of_cons.
      repeat split; try done. apply not_elem_of_nil. }
    rewrite Ht. by destruct (URLSearchParams.has sp name).
  - by rewrite take_app_length.
  - rewrite length_app. split; [lia |].
    assert (length (missing sp (Index.documented_defaults kind)) <= 5)%nat; [| lia].
    unfold missing. etrans; [apply List.filter_length_le |]. by destruct kind.
Qed.

(** X10. A HEAD request is refused (index.ts, lines 26 and 71-73): it is
    answered 405 without a call on the cache or the upstream, in a response
    whose Access-Control-Allow-Methods lists HEAD. *)
Theorem head_refused (request : Request) (env : Index.Env) (w : World) :
  method request = "HEAD" ->
  status (Index.fetch request env w).1 = 405
  /\ body (Index.fetch request env w).1 = Some "Method Not Allowed"
  /\ Headers.get (headers (Index.fetch request env w).1) "Access-Control-Allow-Methods"
     = Some "GET,HEAD,OPTIONS"
  /\ (Index.fetch request env w).2 = w.
Proof.
  intros HH. rewrite fetch_not_allowed by (rewrite HH; discriminate). cbn [fst snd].
  split; [done |]. split; [by rewrite body_withCORS |]. split; [| done].
  apply withCORS_fixed.
Qed.

Lemma head_refused_witness :
  method head_request = "HEAD"
  /\ status (Index.fetch head_request sample_env world_cached).1 = 405.
Proof.
  split; [reflexivity |].
  exact (proj1 (head_refused head_request sample_env world_cached eq_refl)).
Defined.

(* ===================================================================== *)
(** * The cache key, as text *)
(* ===================================================================== *)

Section CacheKey.

Import URLSearchParams.

Lemma length_append (a b : string) :
  String.length (a +:+ b) = (String.length a + String.length b)%nat.
Proof. induction a as [| c a IH]; [done |]. rewrite append_cons. simpl. by rewrite IH. Qed.

Lemma append_inj_r (a b c : string) : a +:+ c = b +:+ c -> a = b.
Proof.
  revert b. induction a as [| x a IH]; intros [| y b] H.
  - done.
  - apply (f_equal String.length) in H. rewrite append_nil, append_cons in H.
    simpl in H. rewrite length_append in H. lia.
  - apply (f_equal String.length) in H. rewrite append_nil, append_cons in H.
    simpl in H. rewrite length_append in H. lia.
  - rewrite !append_cons in H. injection H as -> H. f_equal. by apply IH.
Qed.

(** Percent-decoding undoes the byte serialisation. *)
Lemma decode_serialize_byte (c : ascii) (rest : string) :
  percent_decode (plus_to_space (serialize_byte c +:+ rest))
  = String c (percent_decode (plus_to_space rest)).
Proof. destruct c as [[] [] [] [] [] [] [] []]; reflexivity. Qed.

Lemma decode_serialize_bytes (x : string) :
  percent_decode (plus_to_space (serialize_bytes x)) = x.
Proof.
  induction x as [| c r IH]; [done |].
  simpl. by rewrite decode_serialize_byte, IH.
Qed.

Lemma serialize_bytes_inj (x y : string) :
  serialize_bytes x = serialize_bytes y -> x = y.
Proof.
  intros H. rewrite <- (decode_serialize_bytes x), <- (decode_serialize_bytes y).
  by rewrite H.
Qed.

Lemma cut_append (sep : ascii) (a b : string) :
  occurs sep a = false -> URL.cut sep (a +:+ String sep b) = (a, Some b).
Proof.
  induction a as [| x a IH]; intros H.
  - rewrite append_nil. simpl. by rewrite Ascii.eqb_refl.
  - rewrite append_cons. simpl in *. apply orb_false_iff in H as [Hx Ha].
    by rewrite Hx, (IH Ha).
Qed.

Lemma piece_inj (p q : string * string) : piece p = piece q -> p = q.
Proof.
  destruct p as [n v], q as [m u]. unfold piece. cbn [fst snd]. intros H.
  apply (f_equal (URL.cut "=")) in H.
  change ("=" +:+ serialize_bytes v) with (String "=" (serialize_bytes v)) in H.
  change ("=" +:+ serialize_bytes u) with (String "=" (serialize_bytes u)) in H.
  rewrite !cut_append in H by apply serialize_bytes_plain.
  injection H as Hn Hv. f_equal; by apply serialize_bytes_inj.
Qed.

Lemma pieces_inj (a b : list (string * string)) :
  piece <$> a = piece <$> b -> a = b.
Proof.
  revert b. induction a as [| p a IH]; intros [| q b] H; try done.
  rewrite !fmap_cons in H. injection H as Hp H.
  f_equal; [by apply piece_inj | by apply IH].
Qed.

Lemma toString_nonempty (sp : list (string * string)) : sp <> [] -> toString sp <> "".
Proof.
  intros Hne H. apply (f_equal (JS.split "&")) in H.
  rewrite split_toString in H by done.
  destruct sp as [| p r]; [done |].
  rewrite fmap_cons in H. injection H as Hp _.
  by destruct (piece_plain p) as (_ & _ & _ & Hpiece).
Qed.

(** Two parameter lists that serialise to the same text are the same list. *)
Lemma toString_inj (a b : list (string * string)) : toString a = toString b -> a = b.
Proof.
  intros H. destruct a as [| p a], b as [| q b]; [done | | |].
  - symmetry in H. by apply toString_nonempty in H.
  - by apply toString_nonempty in H.
  - apply pieces_inj. by rewrite <- !split_toString, H.
Qed.

Lemma toString_set_search (sp : list (string * string)) (u : URL.t) :
  sp <> [] ->
  URL.toString (URL.set_search (toString sp) u)
  = URL.base u +:+ ("?" +:+ toString sp)
    +:+ match URL.fragment u with Some f => "#" +:+ f | None => "" end.
Proof. intros Hne. unfold URL.toString. by rewrite query_set_search. Qed.

Lemma applyDefaults_nonempty (sp : list (string * string)) (kind : Index.Kind) :
  Index.applyDefaults sp kind <> [].
Proof.
  rewrite applyDefaults_spec. destruct sp as [| p r]; [| done].
  by destruct kind.
Qed.

End CacheKey.

(** X11. The cache key is the text of the forwarded query (index.ts, lines
    36-38 and 84-91).  The key of a request is built from the parameter list
    that [URLSearchParams] holds for its query; for one dataset kind and
    upstream base, two parameter lists give the same key exactly when the
    lists with the defaults filled in are the same pairs in the same order.
    So a list that is already filled in has the key of the list it was
    filled from, and two different pairs at the front, swapped, give another
    key. *)
Theorem cache_key_textual (request : Request) (env : Index.Env) :
  let kind := Index.route (pathname request) in
  let key sp :=
    cacheKeyFromURL
      (URL.set_search (URLSearchParams.toString (Index.applyDefaults sp kind))
         (URL.parse (Index.upstreamBase env kind))) in
  cacheKeyFromURL (Index.upstreamURL request env)
  = key (URLSearchParams.new (search request))
  /\ (forall sp1 sp2,
      key sp1 = key sp2 <-> Index.applyDefaults sp1 kind = Index.applyDefaults sp2 kind)
  /\ (forall sp, key (Index.applyDefaults sp kind) = key sp)
  /\ (forall p q sp, p <> q -> key (p :: q :: sp) <> key (q :: p :: sp)).
Proof.
  cbv zeta. set (kind := Index.route (pathname request)).
  set (u := URL.parse (Index.upstreamBase env kind)).
  assert (Hiff : forall sp1 sp2,
            cacheKeyFromURL
              (URL.set_search (URLSearchParams.toString (Index.applyDefaults sp1 kind)) u)
            = cacheKeyFromURL
                (URL.set_search (URLSearchParams.toString (Index.applyDefaults sp2 kind)) u)
            <-> Index.applyDefaults sp1 kind = Index.applyDefaults sp2 kind).
  { intros sp1 sp2. unfold cacheKeyFromURL. split.
    - rewrite !toString_set_search by apply applyDefaults_nonempty.
      intros H. apply String.app_inj in H. apply append_inj_r in H.
      apply String.app_inj in H. by apply toString_inj.
    - by intros ->. }
  split; [done |]. split; [exact Hiff |]. split.
  - intros sp. apply Hiff.
    rewrite (applyDefaults_spec (Index.applyDefaults sp kind)).
    rewrite applyDefaults_spec at 2. by rewrite missing_filled, app_nil_r.
  - intros p q sp Hpq Hkey. apply Hiff in Hkey.
    rewrite !applyDefaults_spec in Hkey. simpl in Hkey. by injection Hkey.
Qed.

(** A query that spells out the default that would be appended first shares
    the key of the query without it. *)
Example spelled_out_default_shares_key :
  let one := with_pathname water_request "/water" in
  let other :=
    {| method := "GET"; pathname := "/water";
       search := "?where=STATE%3D%27NSW%27&f=json&returnGeometry=true";
       req_headers := Headers.empty |} in
  String.eqb (search one) (search other) = false
  /\ cacheKeyFromURL (Index.upstreamURL one sample_env)
     = cacheKeyFromURL (Index.upstreamURL other sample_env).
Proof. cbv zeta. split; vm_compute; reflexivity. Qed.

(** The same two parameters in another order: another cache key. *)
Example parameter_order_matters :
  let one := with_pathname water_request "/water" in
  let other :=
    {| method := "GET"; pathname := "/water";
       search := "?f=json&where=STATE%3D%27NSW%27";
       req_headers := Headers.empty |} in
  String.eqb (cacheKeyFromURL (Index.upstreamURL one sample_env))
             (cacheKeyFromURL (Index.upstreamURL other sample_env)) = false.
Proof. vm_compute. reflexivity. Qed.

(* ===================================================================== *)
(** * The single-upstream revisions *)
(* ===================================================================== *)

(** X12. unnamed/part_000 (lines 107-121): a GET miss that gets an upstream
    response returns it with its status, and writes it to the cache when its
    status is 2xx and only then. *)
Theorem part000_caches_iff_ok (request : Request) (env : Part000.Env) (w : World)
    (upstreamRes : Response) :
  let key := cacheKeyFromURL (Part000.upstreamURL request env) in
  let url := URL.toString (Part000.upstreamURL request env) in
  let fresh := normalize (Part000.CACHE_TTL env) upstreamRes in
  let res := (Part000.fetch request env w).1 in
  let w' := (Part000.fetch request env w).2 in
  method request = "GET" ->
  edge_cache w !! key = None ->
  origin_server w url = Some upstreamRes ->
  status res = status upstreamRes
  /\ (200 <= status upstreamRes <= 299 ->
      edge_cache w' = <[key := fresh]> (edge_cache w)
      /\ puts (trace w') = S (puts (trace w)))
  /\ (~ 200 <= status upstreamRes <= 299 ->
      edge_cache w' = edge_cache w /\ puts (trace w') = puts (trace w)).
Proof.
  cbv zeta. intros HG Hmiss Hnet.
  assert (Hok : ok upstreamRes = true <-> 200 <= status upstreamRes <= 299).
  { unfold ok. rewrite andb_true_iff, !Z.leb_le. done. }
  unfold Part000.fetch, bind, cache_match, fetch_upstream, cache_put, ret.
  rewrite HG.
  change (String.eqb "GET" "OPTIONS") with false.
  change (negb (String.eqb "GET" "GET")) with false.
  cbv beta iota zeta. rewrite Hmiss. cbn [edge_cache origin_server record].
  rewrite Hnet.
  destruct (ok upstreamRes) eqn:E; cbn [fst snd edge_cache trace];
    unfold record; cbn [trace]; unfold puts;
    rewrite !List.filter_app, !length_app; simpl.
  - split; [done |]. split; [intros _; split; [done | lia] |].
    intros Hn. destruct Hn. by apply Hok.
  - split; [done |]. split; [intros Hr; apply Hok in Hr; congruence |].
    intros _. split; [done | lia].
Qed.

Lemma part000_caches_iff_ok_witness :
  method plain_request = "GET"
  /\ edge_cache (world_answering upstream_200)
       !! cacheKeyFromURL (Part000.upstreamURL plain_request single_env_000) = None
  /\ origin_server (world_answering upstream_200)
       (URL.toString (Part000.upstreamURL plain_request single_env_000))
     = Some upstream_200
  /\ puts (trace (Part000.fetch plain_request single_env_000
                    (world_answering upstream_200)).2) = 1%nat.
Proof.
  do 3 (split; [reflexivity |]).
  destruct (part000_caches_iff_ok plain_request single_env_000
              (world_answering upstream_200) upstream_200 eq_refl eq_refl eq_refl)
    as (_ & Hyes & _).
  destruct Hyes as [_ Hp]; [simpl; lia | exact Hp].
Defined.

Lemma part000_defaults_spec (sp : list (string * string)) :
  Part000.defaults sp = sp ++ missing sp part000_defaults.
Proof.
  unfold Part000.defaults, part000_defaults. cbv zeta. rewrite !fill_eq.
  do 4 (rewrite (fill_after sp) by reflexivity; cbn [app]).
  reflexivity.
Qed.

(** X13. The forwarded query of unnamed/part_000 (lines 61-71): the inbound
    parameters, unchanged and first, followed by those of the five defaults
    [f=geojson], [returnGeometry=true], [resultRecordCount=200],
    [outFields=*] and [where=1=1] that the inbound query lacks; a lacking
    default is forwarded once, with that value. *)
Theorem part000_forwarded_query (request : Request) (env : Part000.Env) :
  let inbound := URLSearchParams.new (search request) in
  let forwarded := Part000.defaults inbound in
  URL.query (Part000.upstreamURL request env) = Some (URLSearchParams.toString forwarded)
  /\ forwarded = inbound ++ missing inbound part000_defaults
  /\ Part000.defaults forwarded = forwarded
  /\ (forall name value, (name, value) ∈ part000_defaults ->
      URLSearchParams.has inbound name = false ->
      URLSearchParams.getAll forwarded name = [value])
  /\ (forall name, URLSearchParams.has inbound name = true ->
      URLSearchParams.getAll forwarded name = URLSearchParams.getAll inbound name).
Proof.
  cbv zeta. set (inbound := URLSearchParams.new (search request)).
  assert (Hne : Part000.defaults inbound <> []).
  { rewrite part000_defaults_spec. by destruct inbound. }
  split; [unfold Part000.upstreamURL; cbv zeta; by apply query_set_search |].
  split; [apply part000_defaults_spec |].
  split.
  { rewrite (part000_defaults_spec (Part000.defaults inbound)).
    rewrite part000_defaults_spec at 2. by rewrite missing_filled, app_nil_r. }
  split.
  - intros name value Hin Habs.
    assert (Hnd : NoDup part000_defaults.*1).
    { apply (bool_decide_unpack _). vm_compute. exact I. }
    destruct (get_missing inbound _ name value Hnd Hin Habs) as [_ Hall].
    by rewrite part000_defaults_spec, getAll_app, (getAll_nil _ _ Habs).
  - intros name Hhas.
    rewrite part000_defaults_spec, getAll_app.
    rewrite (getAll_nil (missing inbound part000_defaults))
      by (by apply has_missing).
    apply app_nil_r.
Qed.

Lemma part001_caches_every_response_witness :
  method plain_request = "GET"
  /\ edge_cache (world_answering upstream_500)
       !! cacheKeyFromURL (Part001.upstreamURL plain_request single_env_001) = None
  /\ origin_server (world_answering upstream_500)
       (URL.toString (Part001.upstreamURL plain_request single_env_001))
     = Some upstream_500
  /\ status (Part001.fetch plain_request single_env_001
               (world_answering upstream_500)).1 = 500
  /\ puts (trace (Part001.fetch plain_request single_env_001
                    (world_answering upstream_500)).2) = 1%nat.
Proof.
  do 3 (split; [reflexivity |]).
  destruct (part001_caches_every_response plain_request single_env_001
              (world_answering upstream_500) upstream_500 eq_refl eq_refl eq_refl)
    as (Hs & _ & Hp).
  split; [exact Hs | exact Hp].
Defined.

(** X15. The forwarded query of unnamed/part_001 (lines 48-57): the inbound
    parameters, unchanged and first, followed by those of the four defaults
    [f=geojson], [returnGeometry=true], [resultRecordCount=200] and
    [outFields=*] that the inbound query lacks; a [where] parameter is
    forwarded exactly when the client sent one. *)
Theorem part001_forwarded_query (request : Request) (env : Part001.Env) :
  let inbound := URLSearchParams.new (search request) in
  let forwarded := Part001.defaults inbound in
  URL.query (Part001.upstreamURL request env) = Some (URLSearchParams.toString forwarded)
  /\ forwarded = inbound ++ missing inbound part001_defaults
  /\ URLSearchParams.getAll forwarded "where" = URLSearchParams.getAll inbound "where"
  /\ (forall name value, (name, value) ∈ part001_defaults ->
      URLSearchParams.has inbound name = false ->
      URLSearchParams.getAll forwarded name = [value]).
Proof.
  cbv zeta. set (inbound := URLSearchParams.new (search request)).
  assert (Hne : Part001.defaults inbound <> []).
  { rewrite part001_defaults_spec. by destruct inbound. }
  split; [unfold Part001.upstreamURL; cbv zeta; by apply query_set_search |].
  split; [apply part001_defaults_spec |].
  split.
  - rewrite part001_defaults_spec, getAll_app.
    rewrite (getAll_nil (missing inbound _)) by (by apply has_missing_other).
    apply app_nil_r.
  - intros name value Hin Habs.
    assert (Hnd : NoDup part001_defaults.*1).
    { apply (bool_decide_unpack _). vm_compute. exact I. }
    destruct (get_missing inbound _ name value Hnd Hin Habs) as [_ Hall].
    by rewrite part001_defaults_spec, getAll_app, (getAll_nil _ _ Habs).
Qed.

(* ===================================================================== *)
(** * The allow-list, at its edges *)
(* ===================================================================== *)

(** X16. An empty CORS_ORIGIN allows no origin (index.ts, lines 17-24): split
    at commas it is the one entry [""], which no non-empty Origin equals and
    which is no wildcard, so [withCORS] leaves Access-Control-Allow-Origin as
    the wrapped response has it, whatever the request's Origin. *)
Theorem empty_allow_list (res : Response) (reqOrigin : option string) :
  JS.trim <$> JS.split "," "" = [""]
  /\ Headers.get (headers (withCORS res "" reqOrigin)) "Access-Control-Allow-Origin"
     = Headers.get (headers res) "Access-Control-Allow-Origin"
  /\ cors_fixed (headers (withCORS res "" reqOrigin)).
Proof.
  split; [reflexivity |]. split; [| apply withCORS_fixed].
  rewrite get_withCORS_allow. unfold allow_origin. cbv zeta.
  change (JS.trim <$> JS.split "," "") with [""].
  by destruct reqOrigin as [[| c o] |].
Qed.
